(** * Random CSV fixture generators: shipments and vehicles

    A shallow embedding of [generate_shipments_csv.py] and
    [generate_vehicles_csv.py].

    Conventions of the embedding.
    - Python [int] is [Z]; Python [str] is [string].
    - Python [float] is idealised as an exact rational ([Q]): the binary64
      rounding of each arithmetic operation is not modelled. Division by a
      float zero raises [ZeroDivisionError], as in Python.
    - Exceptions are explicit: a computation returns [Ok v] or [Raise e].
    - The process-global [random] generator and the system clock are the
      two parts of the mutable [World] threaded through the generators.
    - What Python's runtime supplies ([random], [math.cos], [math.radians],
      [float.__repr__]) is an interface, [Runtime]; the generators are
      written against it. *)

From Stdlib Require Import ZArith QArith Qabs Qround List String Ascii Bool Lia Lqa.
From Stdlib Require Import DecimalString DecimalZ DecimalPos FinFun.
Import ListNotations.

Local Open Scope Z_scope.

(** ** Exceptions and the error monad *)

Inductive exn : Type :=
| ZeroDivisionError
| ValueError
| OverflowError.

Inductive result (A : Type) : Type :=
| Ok (a : A)
| Raise (e : exn).

Arguments Ok {A} a.
Arguments Raise {A} e.

Definition rbind {A B : Type} (r : result A) (k : A -> result B) : result B :=
  match r with
  | Ok a => k a
  | Raise e => Raise e
  end.

Declare Scope py_scope.
Delimit Scope py_scope with py.

Notation "x <- c ;; k" := (rbind c (fun x => k))
  (at level 61, c at next level, right associativity) : py_scope.
Notation "' pat <- c ;; k" := (rbind c (fun x => match x with pat => k end))
  (at level 61, pat pattern, c at next level, right associativity) : py_scope.

Local Open Scope py_scope.

Definition is_ok {A : Type} (r : result A) : bool :=
  match r with Ok _ => true | Raise _ => false end.

(** ** The Python runtime the scripts rely on *)

Class Runtime : Type := {
  (** state of the Mersenne Twister behind the [random] module *)
  rng_state : Type;
  (** [random.seed(n)] *)
  rng_seed : Z -> rng_state;
  (** [random.random()]: a float in [0, 1), and the advanced state *)
  rng_random : rng_state -> Q * rng_state;
  (** [random._randbelow(n)] for [n > 0]: an int in [0, n) *)
  rng_randbelow : Z -> rng_state -> Z * rng_state;
  rng_random_unit : forall g, (0 <= fst (rng_random g) /\ fst (rng_random g) < 1)%Q;
  rng_randbelow_range : forall n g, 0 < n -> 0 <= fst (rng_randbelow n g) < n;
  (** [math.cos] and [math.radians] *)
  math_cos : Q -> Q;
  math_radians : Q -> Q;
  (** [float.__repr__], which an f-string applies to a float *)
  float_repr : Q -> string
}.

(** ** Calendar: [datetime.date] and [datetime.datetime] *)

Record datetime : Type := mkDatetime {
  year : Z;
  month : Z;
  day : Z;
  hour : Z;
  minute : Z;
  second : Z;
  microsecond : Z
}.

Definition MINYEAR : Z := 1.
Definition MAXYEAR : Z := 9999.

Definition is_leap (y : Z) : bool :=
  (y mod 4 =? 0) && (negb (y mod 100 =? 0) || (y mod 400 =? 0)).

Definition days_in_month (y m : Z) : Z :=
  if m =? 2 then (if is_leap y then 29 else 28)
  else if (m =? 4) || (m =? 6) || (m =? 9) || (m =? 11) then 30
  else 31.

Definition days_before_year (y : Z) : Z :=
  let p := y - 1 in p * 365 + p / 4 - p / 100 + p / 400.

Definition DAYS_BEFORE_MONTH : list Z :=
  [0; 31; 59; 90; 120; 151; 181; 212; 243; 273; 304; 334].

Definition days_before_month (y m : Z) : Z :=
  nth (Z.to_nat (m - 1)) DAYS_BEFORE_MONTH 0
  + (if (2 <? m) && is_leap y then 1 else 0).

(** [date.toordinal()]: 0001-01-01 is day 1. *)
Definition toordinal (d : datetime) : Z :=
  days_before_year (year d) + days_before_month (year d) (month d) + day d.

(** Month and day are those of a calendar day. *)
Definition wf_date (d : datetime) : Prop :=
  1 <= month d <= 12 /\ 1 <= day d <= days_in_month (year d) (month d).

Definition valid_date (d : datetime) : Prop :=
  MINYEAR <= year d <= MAXYEAR /\ wf_date d.



Definition same_date (a b : datetime) : Prop :=
  year a = year b /\ month a = month b /\ day a = day b.

Definition with_date (d : datetime) (y m dd : Z) : datetime :=
  mkDatetime y m dd (hour d) (minute d) (second d) (microsecond d).

(** The day after, and the day before, in the proleptic Gregorian calendar. *)
Definition next_day (d : datetime) : datetime :=
  if day d <? days_in_month (year d) (month d) then
    with_date d (year d) (month d) (day d + 1)
  else if month d <? 12 then with_date d (year d) (month d + 1) 1
  else with_date d (year d + 1) 1 1.

Definition prev_day (d : datetime) : datetime :=
  if 1 <? day d then with_date d (year d) (month d) (day d - 1)
  else if 1 <? month d then
    with_date d (year d) (month d - 1) (days_in_month (year d) (month d - 1))
  else with_date d (year d - 1) 12 31.

Fixpoint iter_days (f : datetime -> datetime) (n : nat) (d : datetime) : datetime :=
  match n with
  | O => d
  | S k => iter_days f k (f d)
  end.

Definition shift_days (k : Z) (d : datetime) : datetime :=
  if 0 <=? k then iter_days next_day (Z.to_nat k) d
  else iter_days prev_day (Z.to_nat (- k)) d.

Definition check_year (d : datetime) : result datetime :=
  if (MINYEAR <=? year d) && (year d <=? MAXYEAR) then Ok d
  else Raise OverflowError.

(** [d + timedelta(days=k)] *)
Definition add_days (d : datetime) (k : Z) : result datetime :=
  check_year (shift_days k d).

(** [d + timedelta(minutes=k)]: the minutes are carried into hours and days. *)
Definition add_minutes (d : datetime) (k : Z) : result datetime :=
  let total := hour d * 60 + minute d + k in
  let carry := total / 1440 in
  let rest := total mod 1440 in
  let s := shift_days carry d in
  check_year
    (mkDatetime (year s) (month s) (day s) (rest / 60) (rest mod 60)
       (second d) (microsecond d)).

(** [d.replace(hour=h, minute=0, second=0, microsecond=0)] *)
Definition replace_hour_zeroed (d : datetime) (h : Z) : result datetime :=
  if (0 <=? h) && (h <? 24) then
    Ok (mkDatetime (year d) (month d) (day d) h 0 0 0)
  else Raise ValueError.

(** Minutes elapsed since the start of day 0 of the calendar. *)
Definition minutes_of (d : datetime) : Z :=
  toordinal d * 1440 + hour d * 60 + minute d.

(** ** Strings: [str(int)], [strftime], f-strings *)

Local Open Scope string_scope.
Local Open Scope Z_scope.

(** [str(n)] for an int *)
Definition str_int (n : Z) : string := NilZero.string_of_int (Z.to_int n).

Definition digit (n : Z) : ascii := ascii_of_nat (48 + Z.to_nat n).

Definition pad2 (n : Z) : string :=
  String (digit (n / 10)) (String (digit (n mod 10)) "").

Definition pad4 (n : Z) : string :=
  String (digit (n / 1000)) (String (digit (n / 100 mod 10)) (pad2 (n mod 100))).

(** The [strftime] directives the scripts use. Any other directive is kept
    as it is written. [%Y] is the year padded to four digits. *)
Definition directive (c : ascii) (d : datetime) : string :=
  if Ascii.eqb c "Y" then pad4 (year d)
  else if Ascii.eqb c "m" then pad2 (month d)
  else if Ascii.eqb c "d" then pad2 (day d)
  else if Ascii.eqb c "H" then pad2 (hour d)
  else if Ascii.eqb c "M" then pad2 (minute d)
  else if Ascii.eqb c "S" then pad2 (second d)
  else String "%" (String c "").

Fixpoint strftime (fmt : string) (d : datetime) : string :=
  match fmt with
  | "" => ""
  | String c rest =>
      if Ascii.eqb c "%" then
        match rest with
        | "" => String c ""
        | String k rest' => directive k d ++ strftime rest' d
        end
      else String c (strftime rest d)
  end.

Definition ISO_FORMAT : string := "%Y-%m-%dT%H:%M:%S.000Z".

(** How a timestamp of the shape [YYYY-MM-DDTHH:MM:SS.mmmZ] reads: the
    seven numeric fields, when the text has that shape. *)
Definition is_digit (c : ascii) : bool :=
  ((48 <=? nat_of_ascii c) && (nat_of_ascii c <=? 57))%nat.

Definition digit_value (c : ascii) : Z := Z.of_nat (nat_of_ascii c) - 48.

Fixpoint all_digits (s : string) : bool :=
  match s with
  | "" => true
  | String c rest => is_digit c && all_digits rest
  end.

Fixpoint number_of (s : string) (acc : Z) : Z :=
  match s with
  | "" => acc
  | String c rest => number_of rest (10 * acc + digit_value c)
  end.

Definition numeric_field (s : string) (pos len : nat) : option Z :=
  let t := substring pos len s in
  if all_digits t then Some (number_of t 0) else None.

Definition has_at (s : string) (pos : nat) (c : string) : bool :=
  String.eqb (substring pos 1 s) c.

Definition parse_iso (s : string) : option datetime :=
  if (String.length s =? 24)%nat
     && has_at s 4 "-" && has_at s 7 "-" && has_at s 10 "T"
     && has_at s 13 ":" && has_at s 16 ":" && has_at s 19 "." && has_at s 23 "Z"
  then
    match numeric_field s 0 4, numeric_field s 5 2, numeric_field s 8 2,
          numeric_field s 11 2, numeric_field s 14 2, numeric_field s 17 2,
          numeric_field s 20 3 with
    | Some y, Some mo, Some d, Some h, Some mi, Some se, Some ms =>
        Some (mkDatetime y mo d h mi se (ms * 1000))
    | _, _, _, _, _, _, _ => None
    end
  else None.

(** The fields a timestamp can carry: a year of four digits, two digits for
    the others, no sub-second part. *)
Definition renderable (d : datetime) : Prop :=
  0 <= year d < 10000 /\ 0 <= month d < 100 /\ 0 <= day d < 100 /\
  0 <= hour d < 100 /\ 0 <= minute d < 100 /\ 0 <= second d < 100 /\
  microsecond d = 0.


(** ** Floats: division, [round(x, ndigits)] *)

Definition float_div (x y : Q) : result Q :=
  if Qeq_bool y 0 then Raise ZeroDivisionError else Ok (x / y)%Q.

(** Nearest integer, ties to even. *)
Definition round_half_even (x : Q) : Z :=
  let f := Qfloor x in
  let r := (x - inject_Z f)%Q in
  match (r ?= 1 # 2)%Q with
  | Lt => f
  | Gt => f + 1
  | Eq => if Z.even f then f else f + 1
  end.

(** [round(x, ndigits)] for [ndigits >= 0] *)
Definition py_round (x : Q) (ndigits : Z) : Q :=
  let scale := inject_Z (10 ^ ndigits) in
  (inject_Z (round_half_even (x * scale)) / scale)%Q.

(** ** The world: the global generator and the clock *)

Record WorldOf (G : Type) : Type := mkWorld {
  (** state of the global generator *)
  w_rng : G;
  (** what the [k]-th reading of the local clock returns *)
  w_clock : nat -> datetime;
  (** how many readings were made *)
  w_reads : nat
}.

Arguments mkWorld {G} w_rng w_clock w_reads.
Arguments w_rng {G} w.
Arguments w_clock {G} w.
Arguments w_reads {G} w.

Abbreviation World := (WorldOf rng_state).

Section Generators.

Context {RT : Runtime}.

Definition set_rng (w : World) (g : rng_state) : World :=
  mkWorld g (w_clock w) (w_reads w).

(** [random.seed(n)] *)
Definition random_seed (n : Z) (w : World) : World := set_rng w (rng_seed n).

(** [random.uniform(a, b)] is [a + (b - a) * random()]. *)
Definition random_uniform (a b : Q) (w : World) : Q * World :=
  let (u, g) := rng_random (w_rng w) in
  ((a + (b - a) * u)%Q, set_rng w g).

(** [random.randint(a, b)] is [randrange(a, b + 1)], which raises on an
    empty range. *)
Definition random_randint (a b : Z) (w : World) : result (Z * World) :=
  let width := b + 1 - a in
  if 0 <? width then
    let (k, g) := rng_randbelow width (w_rng w) in Ok (a + k, set_rng w g)
  else Raise ValueError.

(** [datetime.now()]: the naive local time *)
Definition datetime_now (w : World) : datetime * World :=
  (w_clock w (w_reads w), mkWorld (w_rng w) (w_clock w) (S (w_reads w))).

(** ** generate_shipments_csv.py *)

Definition generate_random_coords (center_lat center_lon square_size_km : Q)
    (w : World) : result ((Q * Q) * World) :=
  let lat_offset := ((square_size_km / 2) / 111)%Q in
  lon_offset <- float_div (square_size_km / 2)
                  (111 * Qabs (math_cos (math_radians center_lat))) ;;
  let (u1, w1) := random_uniform (- lat_offset) lat_offset w in
  let lat := (center_lat + u1)%Q in
  let (u2, w2) := random_uniform (- lon_offset) lon_offset w1 in
  let lon := (center_lon + u2)%Q in
  Ok ((py_round lat 8, py_round lon 8), w2).

(** The two datetimes [start_time] and [end_time] of the window. *)
Definition window_bounds (now : datetime) (random_hour window_duration_minutes : Z)
    : result (datetime * datetime) :=
  tomorrow <- add_days now 1 ;;
  base_date <- replace_hour_zeroed tomorrow random_hour ;;
  let start_time := base_date in
  end_time <- add_minutes base_date window_duration_minutes ;;
  Ok (start_time, end_time).

(** The hour of the window: [fixed_hour] when it is given, a draw otherwise. *)
Definition selected_hour (start_hour end_hour : Z) (fixed_hour : option Z)
    (w : World) : result (Z * World) :=
  match fixed_hour with
  | Some h => Ok (h, w)
  | None => random_randint start_hour (end_hour - 1) w
  end.

Definition TimeWindow : Type := (string * string * string * string)%type.

Definition generate_random_time_window
    (start_hour end_hour window_duration_minutes : Z)
    (fixed_hour : option Z) (fixed_minute : Z) (w : World)
    : result (TimeWindow * World) :=
  '(random_hour, w1) <- selected_hour start_hour end_hour fixed_hour w ;;
  let (now, w2) := datetime_now w1 in
  '(start_time, end_time) <- window_bounds now random_hour window_duration_minutes ;;
  let start_iso := strftime ISO_FORMAT start_time in
  let end_iso := strftime ISO_FORMAT end_time in
  Ok ((start_iso, start_iso, end_iso, end_iso), w2).

End Generators.

(** ** The [csv] module: [csv.DictWriter] with the default (excel) dialect *)

Definition COMMA : ascii := ","%char.
Definition DQUOTE : ascii := "034"%char.
Definition CR : ascii := "013"%char.
Definition LF : ascii := "010"%char.
Definition CRLF : string := String CR (String LF "").

(** A row is a Python dict from column name to cell, in insertion order. *)
Definition dict : Type := list (string * string).

Fixpoint dict_get (key : string) (d : dict) (default : string) : string :=
  match d with
  | [] => default
  | (k, v) :: rest => if String.eqb k key then v else dict_get key rest default
  end.

Definition dict_keys (d : dict) : list string := map fst d.

Definition mem_string (k : string) (l : list string) : bool :=
  existsb (String.eqb k) l.

(** QUOTE_MINIMAL: a cell is quoted when it holds the delimiter, the quote
    character or a character of the line terminator. *)
Definition is_special (c : ascii) : bool :=
  Ascii.eqb c COMMA || Ascii.eqb c DQUOTE || Ascii.eqb c CR || Ascii.eqb c LF.

Fixpoint has_special (s : string) : bool :=
  match s with
  | "" => false
  | String c rest => is_special c || has_special rest
  end.

Fixpoint double_quotes (s : string) : string :=
  match s with
  | "" => ""
  | String c rest =>
      if Ascii.eqb c DQUOTE then String DQUOTE (String DQUOTE (double_quotes rest))
      else String c (double_quotes rest)
  end.

Definition csv_field (s : string) : string :=
  if has_special s then String DQUOTE (double_quotes s ++ String DQUOTE "")
  else s.

Fixpoint join_fields (fields : list string) : string :=
  match fields with
  | [] => ""
  | [f] => csv_field f
  | f :: rest => csv_field f ++ String COMMA (join_fields rest)
  end.

(** [writer.writerow(fields)]; a row made of one empty cell is written as a
    pair of quotes. *)
Definition writerow (fields : list string) : string :=
  match fields with
  | [""] => String DQUOTE (String DQUOTE CRLF)
  | _ => join_fields fields ++ CRLF
  end.

(** [DictWriter._dict_to_list]: a key outside [fieldnames] raises, a missing
    key gives the empty [restval]. *)
Definition dict_to_list (fieldnames : list string) (rowdict : dict)
    : result (list string) :=
  if forallb (fun k => mem_string k fieldnames) (dict_keys rowdict) then
    Ok (map (fun key => dict_get key rowdict "") fieldnames)
  else Raise ValueError.

Definition writeheader (fieldnames : list string) : string := writerow fieldnames.

Fixpoint writerows (fieldnames : list string) (rows : list dict) : result string :=
  match rows with
  | [] => Ok ""
  | r :: rest =>
      cells <- dict_to_list fieldnames r ;;
      tail <- writerows fieldnames rest ;;
      Ok (writerow cells ++ tail)
  end.

(** The text of the file after [writeheader()] and [writerows(rows)]. *)
Definition dictwriter_file (fieldnames : list string) (rows : list dict)
    : result string :=
  body <- writerows fieldnames rows ;;
  Ok (writeheader fieldnames ++ body).

(** [range(n)] *)
Definition py_range (n : Z) : list Z := map Z.of_nat (seq 0 (Z.to_nat n)).

(** How a CSV reader sees a text: the number of cells of each line. A quote
    opens or closes a quoted cell, a comma outside quotes ends a cell, a
    line feed outside quotes ends a line. *)
Fixpoint csv_scan (s : string) (in_quotes : bool) (commas : nat) : list nat :=
  match s with
  | "" => []
  | String c rest =>
      if in_quotes then csv_scan rest (negb (Ascii.eqb c DQUOTE)) commas
      else if Ascii.eqb c DQUOTE then csv_scan rest true commas
      else if Ascii.eqb c COMMA then csv_scan rest false (S commas)
      else if Ascii.eqb c LF then S commas :: csv_scan rest false O
      else csv_scan rest false commas
  end.

Definition csv_shape (text : string) : list nat := csv_scan text false O.

(** ** generate_shipments_csv.py: the driver *)

Record ShipmentArgs : Type := mkShipmentArgs {
  num_shipments : Z;
  depot_lat : Q;
  depot_lon : Q;
  delivery_center_lat : Q;
  delivery_center_lon : Q;
  square_size_km : Q;
  delivery_duration_sec : Z;
  penalty_cost : Z;
  penalty_per_hour : Z;
  max_pallets : Z;
  seed : option Z;
  pickup_hour : option Z;
  pickup_minute : Z
}.

Definition shipment_headers : list string :=
  [ "label";
    "penaltyCost";
    "pickupArrivalWaypoint";
    "pickupDuration";
    "pickupCost";
    "pickupStartTime";
    "pickupSoftStartTime";
    "pickupEndTime";
    "pickupSoftEndTime";
    "pickupCostPerHourBeforeSoftStartTime";
    "pickupCostPerHourAfterSoftStartTime";
    "pickupCostPerHourAfterSoftEndTime";
    "deliveryArrivalWaypoint";
    "deliveryDuration";
    "deliveryCost";
    "deliveryStartTime";
    "deliverySoftStartTime";
    "deliveryEndTime";
    "deliverySoftEndTime";
    "deliveryCostPerHourBeforeSoftStartTime";
    "deliveryCostPerHourAfterSoftEndTime";
    "loadDemand1Type";
    "loadDemand1Value";
    "loadDemand2Type";
    "loadDemand2Value";
    "loadDemand3Type";
    "loadDemand3Value";
    "loadDemand4Type";
    "loadDemand4Value";
    "allowedVehicleIndices" ].

(** The columns of the pickup time window and of the pickup costs, and the
    four columns of the delivery time window. *)
Definition pickup_blank_columns : list string :=
  [ "pickupCost";
    "pickupStartTime";
    "pickupSoftStartTime";
    "pickupEndTime";
    "pickupSoftEndTime";
    "pickupCostPerHourBeforeSoftStartTime";
    "pickupCostPerHourAfterSoftStartTime";
    "pickupCostPerHourAfterSoftEndTime" ].

Definition delivery_time_columns : list string :=
  [ "deliveryStartTime";
    "deliverySoftStartTime";
    "deliveryEndTime";
    "deliverySoftEndTime" ].

Section ShipmentDriver.

Context {RT : Runtime}.

(** [f'{lat}, {lon}'] *)
Definition waypoint (lat lon : Q) : string :=
  float_repr lat ++ ", " ++ float_repr lon.

Definition shipment_row (a : ShipmentArgs) (i : Z) (delivery_lat delivery_lon : Q)
    (tw : TimeWindow) (num_pallets : Z) : dict :=
  let '(start_time, soft_start, end_time, soft_end) := tw in
  [ ("label", "Order - " ++ str_int (i + 1));
    ("penaltyCost", str_int (penalty_cost a));
    ("pickupArrivalWaypoint", waypoint (depot_lat a) (depot_lon a));
    ("pickupDuration", "0");
    ("pickupCost", "");
    ("pickupStartTime", "");
    ("pickupSoftStartTime", "");
    ("pickupEndTime", "");
    ("pickupSoftEndTime", "");
    ("pickupCostPerHourBeforeSoftStartTime", "");
    ("pickupCostPerHourAfterSoftStartTime", "");
    ("pickupCostPerHourAfterSoftEndTime", "");
    ("deliveryArrivalWaypoint", waypoint delivery_lat delivery_lon);
    ("deliveryDuration", str_int (delivery_duration_sec a));
    ("deliveryCost", "");
    ("deliveryStartTime", start_time);
    ("deliverySoftStartTime", soft_start);
    ("deliveryEndTime", end_time);
    ("deliverySoftEndTime", soft_end);
    ("deliveryCostPerHourBeforeSoftStartTime", str_int (penalty_per_hour a));
    ("deliveryCostPerHourAfterSoftEndTime", str_int (penalty_per_hour a));
    ("loadDemand1Type", "pallets");
    ("loadDemand1Value", str_int num_pallets);
    ("loadDemand2Type", "");
    ("loadDemand2Value", "");
    ("loadDemand3Type", "");
    ("loadDemand3Value", "");
    ("loadDemand4Type", "");
    ("loadDemand4Value", "");
    ("allowedVehicleIndices", "") ].

(** The body of [for i in range(num_shipments)], for the indices [idx] that
    remain; the rows come out in the order they are appended. *)
Fixpoint shipments_loop (a : ShipmentArgs) (idx : list Z) (w : World)
    : result (list dict * World) :=
  match idx with
  | [] => Ok ([], w)
  | i :: rest =>
      '((delivery_lat, delivery_lon), w1) <-
         generate_random_coords (delivery_center_lat a) (delivery_center_lon a)
           (square_size_km a) w ;;
      '(tw, w2) <-
         generate_random_time_window 6 22 60 (pickup_hour a) (pickup_minute a) w1 ;;
      '(num_pallets, w3) <- random_randint 1 (max_pallets a) w2 ;;
      '(rows, w4) <- shipments_loop a rest w3 ;;
      Ok (shipment_row a i delivery_lat delivery_lon tw num_pallets :: rows, w4)
  end.

(** A row of the file: made at index [i] from a window that the generator
    returned at some reading of the clock [clock]. *)
Definition row_made_at (a : ShipmentArgs) (clock : nat -> datetime) (i : Z)
    (row : dict) : Prop :=
  exists lat lon tw p (w1 w2 : World),
    w_clock w1 = clock /\
    generate_random_time_window 6 22 60 (pickup_hour a) (pickup_minute a) w1
      = Ok (tw, w2) /\
    1 <= p <= max_pallets a /\
    row = shipment_row a i lat lon tw p.

Definition shipment_rows (a : ShipmentArgs) (w : World) : result (list dict * World) :=
  let w0 := match seed a with
            | Some s => random_seed s w
            | None => w
            end in
  shipments_loop a (py_range (num_shipments a)) w0.

(** The text written to [output_path], and the world afterwards. *)
Definition generate_shipments_csv (a : ShipmentArgs) (w : World)
    : result (string * World) :=
  '(rows, w1) <- shipment_rows a w ;;
  text <- dictwriter_file shipment_headers rows ;;
  Ok (text, w1).

End ShipmentDriver.

(** ** Comparing two runs *)

Section Runs.

Context {RT : Runtime}.

(** What a run leaves behind: the text, or the exception. *)
Definition output {A : Type} (r : result (A * World)) : result A :=
  match r with
  | Ok (x, _) => Ok x
  | Raise e => Raise e
  end.

(** Two worlds with the same generator state whose clocks show, reading
    after reading, the same calendar dates. *)
Definition same_view (w1 w2 : World) : Prop :=
  w_rng w1 = w_rng w2 /\
  forall k, same_date (w_clock w1 (w_reads w1 + k)%nat) (w_clock w2 (w_reads w2 + k)%nat).

Definition agree {A : Type} (r1 r2 : result (A * World)) : Prop :=
  match r1, r2 with
  | Ok (x1, w1), Ok (x2, w2) => x1 = x2 /\ same_view w1 w2
  | Raise e1, Raise e2 => e1 = e2
  | _, _ => False
  end.

End Runs.

(** ** generate_vehicles_csv.py *)

Module Vehicles.

Record VehicleArgs : Type := mkVehicleArgs {
  num_vehicles : Z;
  depot_lat : Q;
  depot_lon : Q;
  capacity_pallets : Z;
  use_if_empty : bool
}.

Definition headers : list string :=
  [ "label";
    "travelMode";
    "startWaypoint";
    "endWaypoint";
    "unloadingPolicy";
    "costPerHour";
    "costPerTraveledHour";
    "costPerKilometer";
    "fixedCost";
    "usedIfRouteIsEmpty";
    "travelDurationMultiple";
    "StartTimeWindowCostPerHourBeforeSoftStartTime";
    "StartTimeWindowCostPerHourAfterSoftEndTime";
    "startTimeWindowStartTime";
    "startTimeWindowSoftStartTime";
    "startTimeWindowEndTime";
    "startTimeWindowSoftEndTime";
    "EndTimeWindowCostPerHourBeforeSoftStartTime";
    "EndTimeWindowCostPerHourAfterSoftEndTime";
    "endTimeWindowStartTime";
    "endTimeWindowSoftStartTime";
    "endTimeWindowEndTime";
    "endTimeWindowSoftEndTime";
    "loadLimit1Type";
    "loadLimit1Value";
    "loadLimit2Type";
    "loadLimit2Value";
    "loadLimit3Type";
    "loadLimit3Value";
    "loadLimit4Type";
    "loadLimit4Value" ].

Section VehicleDriver.

Context {RT : Runtime}.

Definition vehicle_row (depot_waypoint use_if_empty_str : string)
    (capacity_pallets : Z) (i : Z) : dict :=
  [ ("label", "Vehicle - " ++ str_int (i + 1));
    ("travelMode", "DRIVING");
    ("startWaypoint", depot_waypoint);
    ("endWaypoint", depot_waypoint);
    ("unloadingPolicy", "UNLOADING_POLICY_UNSPECIFIED");
    ("costPerHour", "0");
    ("costPerTraveledHour", "0");
    ("costPerKilometer", "0");
    ("fixedCost", "0");
    ("usedIfRouteIsEmpty", use_if_empty_str);
    ("travelDurationMultiple", "1");
    ("StartTimeWindowCostPerHourBeforeSoftStartTime", "");
    ("StartTimeWindowCostPerHourAfterSoftEndTime", "");
    ("startTimeWindowStartTime", "");
    ("startTimeWindowSoftStartTime", "");
    ("startTimeWindowEndTime", "");
    ("startTimeWindowSoftEndTime", "");
    ("EndTimeWindowCostPerHourBeforeSoftStartTime", "");
    ("EndTimeWindowCostPerHourAfterSoftEndTime", "");
    ("endTimeWindowStartTime", "");
    ("endTimeWindowSoftStartTime", "");
    ("endTimeWindowEndTime", "");
    ("endTimeWindowSoftEndTime", "");
    ("loadLimit1Type", "pallets");
    ("loadLimit1Value", str_int capacity_pallets);
    ("loadLimit2Type", "");
    ("loadLimit2Value", "");
    ("loadLimit3Type", "");
    ("loadLimit3Value", "");
    ("loadLimit4Type", "");
    ("loadLimit4Value", "") ].

Definition vehicle_rows (a : VehicleArgs) : list dict :=
  let depot_waypoint := float_repr (depot_lat a) ++ ", " ++ float_repr (depot_lon a) in
  let use_if_empty_str := if use_if_empty a then "TRUE" else "FALSE" in
  map (vehicle_row depot_waypoint use_if_empty_str (capacity_pallets a))
    (py_range (num_vehicles a)).

(** The text written to [output_path]. *)
Definition generate_vehicles_csv (a : VehicleArgs) : result string :=
  dictwriter_file headers (vehicle_rows a).

End VehicleDriver.

End Vehicles.

(** ** A reference runtime, to run the generators on concrete inputs

    The random source replays a recorded list of raw words; the cosine is a
    Taylor polynomial, exact at 0; floats are printed in fixed point. It
    stands in for CPython's runtime in the examples only: every theorem
    about the generators holds for all runtimes. *)

Module Reference.

Definition state : Type := list Z.

Definition word (g : state) : Z :=
  match g with
  | [] => 0
  | x :: _ => x mod 2 ^ 53
  end.

Definition random (g : state) : Q * state :=
  (Qmake (word g) (Z.to_pos (2 ^ 53)), tl g).

Definition randbelow (n : Z) (g : state) : Z * state := (word g mod n, tl g).

Fixpoint lcg_words (n : nat) (x : Z) : state :=
  match n with
  | O => []
  | S k =>
      let x' := (6364136223846793005 * x + 1442695040888963407) mod 2 ^ 64 in
      x' / 2 ^ 11 :: lcg_words k x'
  end.

Definition seed_words (n : Z) : state := lcg_words 64 (Z.abs n).

Definition cos_poly (x : Q) : Q :=
  (1 - x * x / 2 + x * x * x * x / 24 - x * x * x * x * x * x / 720)%Q.

Definition radians (x : Q) : Q := (x * (355 # 113) / 180)%Q.

(** Fixed-point print with eight decimals. *)
Definition repr_fixed (x : Q) : string :=
  let n := Qfloor (Qabs x * inject_Z (10 ^ 8)) in
  (if Qlt_le_dec x 0 then "-" else "")
  ++ str_int (n / 10 ^ 8) ++ "." ++ pad4 (n mod 10 ^ 8 / 10 ^ 4) ++ pad4 (n mod 10 ^ 4).

End Reference.

(** The reference runtime obeys the interface. *)

Lemma reference_word_range (g : Reference.state) : 0 <= Reference.word g < 2 ^ 53.
Proof.
  destruct g as [|x g]; simpl.
  - lia.
  - apply Z.mod_pos_bound; lia.
Qed.

Lemma reference_random_unit (g : Reference.state) :
  (0 <= fst (Reference.random g) /\ fst (Reference.random g) < 1)%Q.
Proof.
  pose proof (reference_word_range g) as H.
  unfold Reference.random; simpl fst.
  unfold Qle, Qlt; simpl Qnum; simpl Qden.
  change (Z.pos (Z.to_pos (2 ^ 53))) with (2 ^ 53).
  lia.
Qed.

Lemma reference_randbelow_range (n : Z) (g : Reference.state) :
  0 < n -> 0 <= fst (Reference.randbelow n g) < n.
Proof.
  intro Hn; unfold Reference.randbelow; simpl fst.
  apply Z.mod_pos_bound; exact Hn.
Qed.

Definition reference_runtime : Runtime :=
  {| rng_state := Reference.state;
     rng_seed := Reference.seed_words;
     rng_random := Reference.random;
     rng_randbelow := Reference.randbelow;
     rng_random_unit := reference_random_unit;
     rng_randbelow_range := reference_randbelow_range;
     math_cos := Reference.cos_poly;
     math_radians := Reference.radians;
     float_repr := Reference.repr_fixed |}.

(** ** Concrete inputs, on the reference runtime *)

Module Examples.

(** A clock that reads the afternoon of the last day of 2024, and one that
    reads the morning of the day after. *)
Definition clock_dec31 (k : nat) : datetime := mkDatetime 2024 12 31 13 45 10 5.
Definition clock_jan01 (k : nat) : datetime := mkDatetime 2025 1 1 9 30 0 0.
Definition clock_dec31_evening (k : nat) : datetime :=
  mkDatetime 2024 12 31 21 (Z.of_nat k) 0 0.

Definition words : list Z := [15 * 2 ^ 49; 2 ^ 52; 7; 3].

Definition world_dec31 : WorldOf Reference.state :=
  mkWorld (G := Reference.state) words clock_dec31 0.
Definition world_jan01 : WorldOf Reference.state :=
  mkWorld (G := Reference.state) words clock_jan01 0.
Definition world_dec31_evening : WorldOf Reference.state :=
  mkWorld (G := Reference.state) [11; 13] clock_dec31_evening 4.

(** The defaults of the command line, for three shipments, seed 42 and a
    pickup hour of 8. *)
Definition args : ShipmentArgs :=
  mkShipmentArgs 3 (445279615 # 10000000) (261798147 # 10000000)
    (444268056 # 10000000) (260999251 # 10000000) 20 600 200 1000 10
    (Some 42) (Some 8) 0.


Definition vehicle_args : Vehicles.VehicleArgs :=
  Vehicles.mkVehicleArgs 2 (445279615 # 10000000) (261798147 # 10000000) 100 false.

End Examples.

(** ** Reading back: [int(s)] *)

(** [int(s)] for a decimal string, with an optional minus sign. *)
Definition int_of_str (s : string) : option Z :=
  option_map Z.of_int (NilZero.int_of_string s).

(** ** When the rows can be made *)

Section RunConditions.

Context {RT : Runtime}.

(** The arguments with which no row can fail. *)
Definition rows_can_be_made (a : ShipmentArgs) : Prop :=
  ~ (math_cos (math_radians (delivery_center_lat a)) == 0)%Q /\
  1 <= max_pallets a /\
  match pickup_hour a with
  | Some h => 0 <= h < 24
  | None => True
  end.

Definition clock_has_room (clock : nat -> datetime) : Prop :=
  forall k, MINYEAR <= year (clock k) < MAXYEAR - 1.

End RunConditions.

(** ** Reading back: a CSV reader

    How a reader with the default dialect reads a text: a cell that begins
    with a quote runs to the closing quote, a doubled quote inside it being
    one quote; any other cell runs to the next comma or line end. *)

Fixpoint read_quoted (s : string) : string * string :=
  match s with
  | "" => ("", "")
  | String c rest =>
      if Ascii.eqb c DQUOTE then
        match rest with
        | "" => ("", "")
        | String c' rest' =>
            if Ascii.eqb c' DQUOTE then
              let (cell, after) := read_quoted rest' in (String DQUOTE cell, after)
            else ("", rest)
        end
      else let (cell, after) := read_quoted rest in (String c cell, after)
  end.

Definition is_break (c : ascii) : bool :=
  Ascii.eqb c COMMA || Ascii.eqb c CR || Ascii.eqb c LF.

Fixpoint read_plain (s : string) : string * string :=
  match s with
  | "" => ("", "")
  | String c rest =>
      if is_break c then ("", s)
      else let (cell, after) := read_plain rest in (String c cell, after)
  end.

Definition read_cell (s : string) : string * string :=
  match s with
  | "" => ("", "")
  | String c rest => if Ascii.eqb c DQUOTE then read_quoted rest else read_plain s
  end.

(** The text after a line end: CR LF, CR or LF. *)
Definition skip_newline (s : string) : string :=
  match s with
  | "" => ""
  | String c rest =>
      if Ascii.eqb c CR then
        match rest with
        | "" => ""
        | String c' rest' => if Ascii.eqb c' LF then rest' else rest
        end
      else if Ascii.eqb c LF then rest
      else s
  end.

Fixpoint read_row (fuel : nat) (s : string) : list string * string :=
  match fuel with
  | O => ([], s)
  | S k =>
      let (cell, after) := read_cell s in
      match after with
      | "" => ([cell], "")
      | String c rest =>
          if Ascii.eqb c COMMA then
            let (cells, after') := read_row k rest in (cell :: cells, after')
          else ([cell], skip_newline after)
      end
  end.

Fixpoint read_rows (fuel : nat) (s : string) : list (list string) :=
  match fuel with
  | O => []
  | S k =>
      match s with
      | "" => []
      | _ =>
          let (cells, after) := read_row (S (String.length s)) s in
          cells :: read_rows k after
      end
  end.

Definition csv_read (s : string) : list (list string) :=
  read_rows (String.length s) s.

(** The lines of a file, one after the other. *)
Fixpoint write_lines (lines : list (list string)) : string :=
  match lines with
  | [] => ""
  | l :: rest => writerow l ++ write_lines rest
  end.


(** The arguments [a] with another [pickup_minute]. *)
Definition with_pickup_minute (a : ShipmentArgs) (m : Z) : ShipmentArgs :=
  mkShipmentArgs (num_shipments a) (depot_lat a) (depot_lon a)
    (delivery_center_lat a) (delivery_center_lon a) (square_size_km a)
    (delivery_duration_sec a) (penalty_cost a) (penalty_per_hour a) (max_pallets a)
    (seed a) (pickup_hour a) m.

(** ** More concrete inputs *)

Module MoreExamples.

Import Examples.

Definition with_hour_and_pallets (n : Z) (hour : option Z) (pallets : Z) : ShipmentArgs :=
  mkShipmentArgs n (445279615 # 10000000) (261798147 # 10000000)
    (444268056 # 10000000) (260999251 # 10000000) 20 600 200 1000 pallets
    (Some 42) hour 0.

Definition args_random_hour : ShipmentArgs := with_hour_and_pallets 3 None 10.
Definition args_none : ShipmentArgs := with_hour_and_pallets 0 (Some 8) 10.
Definition args_hour_23 : ShipmentArgs := with_hour_and_pallets 3 (Some 23) 10.
Definition args_no_pallets : ShipmentArgs := with_hour_and_pallets 3 (Some 8) 0.

(** The last day of the calendar. *)
Definition clock_last_day (k : nat) : datetime := mkDatetime 9999 12 31 8 0 0 0.

Definition world_last_day : WorldOf Reference.state :=
  mkWorld (G := Reference.state) words clock_last_day 0.

Definition no_vehicles : Vehicles.VehicleArgs :=
  Vehicles.mkVehicleArgs 0 (445279615 # 10000000) (261798147 # 10000000) 100 true.

End MoreExamples.

(** * Properties *)

(** ** The calendar *)

Ltac bool_to_prop :=
  repeat match goal with
  | H : (_ =? _) = true |- _ => apply Z.eqb_eq in H
  | H : (_ =? _) = false |- _ => apply Z.eqb_neq in H
  | H : (_ <? _) = true |- _ => apply Z.ltb_lt in H
  | H : (_ <? _) = false |- _ => apply Z.ltb_ge in H
  | H : (_ <=? _) = true |- _ => apply Z.leb_le in H
  | H : (_ <=? _) = false |- _ => apply Z.leb_gt in H
  end.

(** A property of the integers of [lo, lo + len) is checked on each. *)
Lemma cases_in_range (P : Z -> Prop) (lo : Z) (len : nat) :
  (forall k : nat, (k < len)%nat -> P (lo + Z.of_nat k)) ->
  forall n, lo <= n < lo + Z.of_nat len -> P n.
Proof.
  intros H n Hn. replace n with (lo + Z.of_nat (Z.to_nat (n - lo))) by lia.
  apply H. lia.
Qed.

Ltac leap_cases y :=
  unfold is_leap in *;
  destruct (y mod 4 =? 0) eqn:?; destruct (y mod 100 =? 0) eqn:?;
  destruct (y mod 400 =? 0) eqn:?; simpl in *; bool_to_prop.

Lemma days_in_month_bounds (y m : Z) : 28 <= days_in_month y m <= 31.
Proof.
  unfold days_in_month.
  destruct (m =? 2); [destruct (is_leap y); lia|].
  destruct ((m =? 4) || (m =? 6) || (m =? 9) || (m =? 11)); lia.
Qed.

Lemma days_before_year_succ (y : Z) :
  days_before_year (y + 1) = days_before_year y + (if is_leap y then 366 else 365).
Proof.
  unfold days_before_year.
  replace (y + 1 - 1) with y by lia.
  leap_cases y; Z.to_euclidean_division_equations; lia.
Qed.

Lemma days_before_month_succ (y m : Z) :
  1 <= m < 12 ->
  days_before_month y (m + 1) = days_before_month y m + days_in_month y m.
Proof.
  intro H. revert m H.
  apply (cases_in_range
           (fun m => days_before_month y (m + 1)
                     = days_before_month y m + days_in_month y m) 1 11).
  intros k Hk.
  do 11 (destruct k as [|k];
         [unfold days_before_month, days_in_month; simpl;
          destruct (is_leap y); reflexivity|]).
  lia.
Qed.

Lemma days_before_month_dec (y : Z) :
  days_before_month y 12 + 31 = if is_leap y then 366 else 365.
Proof.
  unfold days_before_month; simpl. destruct (is_leap y); reflexivity.
Qed.

Lemma toordinal_next_day (d : datetime) :
  wf_date d -> toordinal (next_day d) = toordinal d + 1.
Proof.
  intros [Hm Hd]. unfold next_day, toordinal.
  destruct (day d <? days_in_month (year d) (month d)) eqn:E1; simpl.
  - lia.
  - bool_to_prop.
    destruct (month d <? 12) eqn:E2; simpl; bool_to_prop.
    + rewrite days_before_month_succ by lia. lia.
    + assert (month d = 12) as Hm12 by lia.
      rewrite days_before_year_succ.
      pose proof (days_before_month_dec (year d)) as H12.
      rewrite Hm12 in *.
      assert (days_in_month (year d) 12 = 31) as D by reflexivity.
      change (days_before_month (year d + 1) 1) with 0.
      lia.
Qed.

Lemma wf_next_day (d : datetime) : wf_date d -> wf_date (next_day d).
Proof.
  intros [Hm Hd]. unfold next_day, wf_date.
  destruct (day d <? days_in_month (year d) (month d)) eqn:E1; simpl.
  - bool_to_prop; lia.
  - destruct (month d <? 12) eqn:E2; simpl; bool_to_prop.
    + pose proof (days_in_month_bounds (year d) (month d + 1)). lia.
    + pose proof (days_in_month_bounds (year d + 1) 1). lia.
Qed.

Lemma toordinal_prev_day (d : datetime) :
  wf_date d -> toordinal (prev_day d) = toordinal d - 1.
Proof.
  intros [Hm Hd]. unfold prev_day, toordinal.
  destruct (1 <? day d) eqn:E1; simpl.
  - lia.
  - bool_to_prop.
    destruct (1 <? month d) eqn:E2; simpl; bool_to_prop.
    + pose proof (days_before_month_succ (year d) (month d - 1)) as H.
      replace (month d - 1 + 1) with (month d) in H by lia.
      rewrite H by lia. lia.
    + assert (month d = 1) as Hm1 by lia. rewrite Hm1.
      pose proof (days_before_year_succ (year d - 1)) as H.
      replace (year d - 1 + 1) with (year d) in H by lia.
      pose proof (days_before_month_dec (year d - 1)) as H12.
      change (days_before_month (year d) 1) with 0.
      lia.
Qed.

Lemma wf_prev_day (d : datetime) : wf_date d -> wf_date (prev_day d).
Proof.
  intros [Hm Hd]. unfold prev_day, wf_date.
  destruct (1 <? day d) eqn:E1; simpl.
  - bool_to_prop; lia.
  - destruct (1 <? month d) eqn:E2; simpl; bool_to_prop.
    + pose proof (days_in_month_bounds (year d) (month d - 1)). lia.
    + change (days_in_month (year d - 1) 12) with 31. lia.
Qed.

Lemma iter_next_day (n : nat) : forall d,
  wf_date d ->
  wf_date (iter_days next_day n d) /\
  toordinal (iter_days next_day n d) = toordinal d + Z.of_nat n.
Proof.
  induction n as [|n IH]; intros d Hd; simpl iter_days.
  - split; [assumption | lia].
  - destruct (IH (next_day d) (wf_next_day d Hd)) as [Hw Ho].
    split; [assumption|]. rewrite Ho, toordinal_next_day by assumption. lia.
Qed.

Lemma iter_prev_day (n : nat) : forall d,
  wf_date d ->
  wf_date (iter_days prev_day n d) /\
  toordinal (iter_days prev_day n d) = toordinal d - Z.of_nat n.
Proof.
  induction n as [|n IH]; intros d Hd; simpl iter_days.
  - split; [assumption | lia].
  - destruct (IH (prev_day d) (wf_prev_day d Hd)) as [Hw Ho].
    split; [assumption|]. rewrite Ho, toordinal_prev_day by assumption. lia.
Qed.

Lemma shift_days_spec (k : Z) (d : datetime) :
  wf_date d ->
  wf_date (shift_days k d) /\ toordinal (shift_days k d) = toordinal d + k.
Proof.
  intro Hd. unfold shift_days.
  destruct (0 <=? k) eqn:E; bool_to_prop.
  - destruct (iter_next_day (Z.to_nat k) d Hd) as [Hw Ho]. split; [assumption|lia].
  - destruct (iter_prev_day (Z.to_nat (- k)) d Hd) as [Hw Ho]. split; [assumption|lia].
Qed.

(** ** Timestamps: rendering and reading back *)

Lemma strftime_iso (d : datetime) :
  strftime ISO_FORMAT d =
  pad4 (year d) ++ "-" ++ pad2 (month d) ++ "-" ++ pad2 (day d) ++ "T" ++
  pad2 (hour d) ++ ":" ++ pad2 (minute d) ++ ":" ++ pad2 (second d) ++ ".000Z".
Proof. cbv [strftime ISO_FORMAT directive Ascii.eqb Bool.eqb]. reflexivity. Qed.

Lemma digit_is_digit (n : Z) : 0 <= n < 10 -> is_digit (digit n) = true.
Proof.
  revert n. apply (cases_in_range (fun n => is_digit (digit n) = true) 0 10).
  intros k Hk. do 10 (destruct k as [|k]; [reflexivity|]). lia.
Qed.

Lemma digit_value_digit (n : Z) : 0 <= n < 10 -> digit_value (digit n) = n.
Proof.
  revert n. apply (cases_in_range (fun n => digit_value (digit n) = n) 0 10).
  intros k Hk. do 10 (destruct k as [|k]; [reflexivity|]). lia.
Qed.

Lemma div10 (n : Z) : 0 <= n < 100 -> 0 <= n / 10 < 10 /\ 0 <= n mod 10 < 10 /\ 10 * (n / 10) + n mod 10 = n.
Proof. intro H. Z.to_euclidean_division_equations; lia. Qed.
Lemma pad2_digits (n : Z) : 0 <= n < 100 -> all_digits (pad2 n) = true.
Proof.
  intro H. destruct (div10 n H) as (A & B & C). unfold pad2. cbn [all_digits].
  rewrite !digit_is_digit by assumption. reflexivity.
Qed.
Lemma pad2_number (n acc : Z) :
  0 <= n < 100 -> number_of (pad2 n) acc = 100 * acc + n.
Proof.
  intro H. destruct (div10 n H) as (A & B & C). unfold pad2. cbn [number_of].
  rewrite !digit_value_digit by assumption. lia.
Qed.
Lemma pad4_split (n : Z) : 0 <= n < 10000 ->
  0 <= n / 1000 < 10 /\ 0 <= n / 100 mod 10 < 10 /\ 0 <= n mod 100 < 100 /\
  1000 * (n / 1000) + 100 * (n / 100 mod 10) + n mod 100 = n.
Proof. intro H. Z.to_euclidean_division_equations; lia. Qed.
Lemma parse_strftime_iso (d : datetime) :
  renderable d -> parse_iso (strftime ISO_FORMAT d) = Some d.
Proof.
  intros (Hy & Hmo & Hd & Hh & Hmi & Hs & Hus).
  rewrite strftime_iso.
  destruct (pad4_split _ Hy) as (Y1 & Y2 & Y3 & Y4).
  destruct (div10 _ Y3) as (Y5 & Y6 & Y7).
  destruct (div10 _ Hmo) as (M1 & M2 & M3).
  destruct (div10 _ Hd) as (D1 & D2 & D3).
  destruct (div10 _ Hh) as (H1 & H2 & H3).
  destruct (div10 _ Hmi) as (N1 & N2 & N3).
  destruct (div10 _ Hs) as (S1 & S2 & S3).
  cbv [parse_iso has_at numeric_field pad4 pad2 append String.length substring
       String.eqb Ascii.eqb Bool.eqb Nat.eqb andb all_digits number_of].
  rewrite !digit_is_digit by assumption.
  cbv [andb]. 
  rewrite !digit_value_digit by assumption.
  change (is_digit "0") with true. cbv iota.
  change (digit_value "0") with 0.
  destruct d as [y mo dd h mi s us]; cbn [year month day hour minute second microsecond] in *.
  f_equal. f_equal; lia.
Qed.

(** ** The time window *)

Lemma iter_days_time (f : datetime -> datetime) (n : nat) :
  (forall d, hour (f d) = hour d /\ minute (f d) = minute d /\
             second (f d) = second d /\ microsecond (f d) = microsecond d) ->
  forall d, hour (iter_days f n d) = hour d /\ minute (iter_days f n d) = minute d /\
            second (iter_days f n d) = second d /\
            microsecond (iter_days f n d) = microsecond d.
Proof.
  intro Hf. induction n as [|n IH]; intro d; simpl.
  - auto.
  - destruct (IH (f d)) as (A & B & C & D), (Hf d) as (A' & B' & C' & D').
    repeat split; congruence.
Qed.

Lemma next_day_time (d : datetime) :
  hour (next_day d) = hour d /\ minute (next_day d) = minute d /\
  second (next_day d) = second d /\ microsecond (next_day d) = microsecond d.
Proof.
  unfold next_day.
  destruct (day d <? _); [|destruct (month d <? 12)]; simpl; auto.
Qed.

Lemma shift_days_one (d : datetime) : shift_days 1 d = next_day d.
Proof. reflexivity. Qed.

Lemma check_year_ok (d e : datetime) :
  check_year d = Ok e -> e = d /\ MINYEAR <= year d <= MAXYEAR.
Proof.
  unfold check_year.
  destruct ((MINYEAR <=? year d) && (year d <=? MAXYEAR)) eqn:E; [|discriminate].
  intro H; injection H as <-.
  apply andb_true_iff in E as [A B]; bool_to_prop. auto.
Qed.

Lemma check_year_total (d : datetime) :
  MINYEAR <= year d <= MAXYEAR -> check_year d = Ok d.
Proof.
  intros [A B]. unfold check_year.
  apply Z.leb_le in A, B. rewrite A, B. reflexivity.
Qed.

Lemma add_minutes_ok (d e : datetime) (k : Z) :
  wf_date d -> 0 <= hour d < 24 -> 0 <= minute d < 60 ->
  add_minutes d k = Ok e ->
  minutes_of e = minutes_of d + k /\
  second e = second d /\ microsecond e = microsecond d /\
  valid_date e /\ 0 <= hour e < 24 /\ 0 <= minute e < 60.
Proof.
  intros Hw Hh Hm H. unfold add_minutes in H.
  apply check_year_ok in H as [-> Hy]. cbn [year] in Hy.
  destruct (shift_days_spec ((hour d * 60 + minute d + k) / 1440) d Hw) as [Hs Ho].
  unfold minutes_of, toordinal, valid_date, wf_date in *.
  cbn [year month day hour minute second microsecond].
  repeat split; try tauto; try lia;
    Z.to_euclidean_division_equations; lia.
Qed.

Lemma window_bounds_ok (now st en : datetime) (h dur : Z) :
  wf_date now ->
  window_bounds now h dur = Ok (st, en) ->
  st = mkDatetime (year (next_day now)) (month (next_day now)) (day (next_day now))
         h 0 0 0 /\
  0 <= h < 24 /\ valid_date st /\ toordinal st = toordinal now + 1 /\
  minutes_of en = minutes_of st + dur /\
  second en = 0 /\ microsecond en = 0 /\
  valid_date en /\ 0 <= hour en < 24 /\ 0 <= minute en < 60.
Proof.
  intros Hw H. unfold window_bounds, add_days in H.
  rewrite shift_days_one in H.
  destruct (check_year (next_day now)) as [t|] eqn:E1; [|discriminate].
  apply check_year_ok in E1 as [-> Hy]. cbn [rbind] in H.
  unfold replace_hour_zeroed in H.
  destruct ((0 <=? h) && (h <? 24)) eqn:E2; [|discriminate].
  apply andb_true_iff in E2 as [A B]; bool_to_prop. cbn [rbind] in H.
  set (base := mkDatetime _ _ _ h 0 0 0) in H.
  destruct (add_minutes base dur) as [e|] eqn:E3; [|discriminate].
  cbn [rbind] in H. injection H as <- <-.
  pose proof (wf_next_day now Hw) as Hn.
  assert (wf_date base) as Hb by exact Hn.
  destruct (add_minutes_ok base e dur Hb) as (M1 & M2 & M3 & M4 & M5 & M6);
    [simpl; lia | simpl; lia | exact E3 |].
  assert (toordinal base = toordinal now + 1) as Ho
    by (change (toordinal base) with (toordinal (next_day now));
        apply toordinal_next_day; assumption).
  assert (valid_date base) as Hv by (split; [exact Hy | exact Hn]).
  simpl in M2, M3.
  split; [reflexivity|]. split; [lia|]. tauto.
Qed.

Section TimeWindowFacts.

Context {RT : Runtime}.

Lemma random_randint_ok (a b k : Z) (w w1 : World) :
  random_randint a b w = Ok (k, w1) ->
  0 < b + 1 - a /\
  k = a + fst (rng_randbelow (b + 1 - a) (w_rng w)) /\
  a <= k <= b /\
  w1 = set_rng w (snd (rng_randbelow (b + 1 - a) (w_rng w))).
Proof.
  unfold random_randint. destruct (0 <? b + 1 - a) eqn:E; [|discriminate].
  bool_to_prop.
  pose proof (rng_randbelow_range (b + 1 - a) (w_rng w) E) as R.
  destruct (rng_randbelow (b + 1 - a) (w_rng w)) as [r g]. simpl in *.
  intro H; injection H as <- <-. repeat split; lia.
Qed.

Lemma random_randint_total (a b : Z) (w : World) :
  a <= b -> exists k w1, random_randint a b w = Ok (k, w1).
Proof.
  intro H. unfold random_randint.
  assert ((0 <? b + 1 - a) = true) as -> by (apply Z.ltb_lt; lia).
  destruct (rng_randbelow (b + 1 - a) (w_rng w)) as [r g]. eauto.
Qed.

Lemma selected_hour_clock sh eh fh (w w1 : World) (h : Z) :
  selected_hour sh eh fh w = Ok (h, w1) ->
  w_clock w1 = w_clock w /\ w_reads w1 = w_reads w.
Proof.
  destruct fh as [x|]; simpl.
  - intro H; injection H as <- <-. auto.
  - intro H. apply random_randint_ok in H as (_ & _ & _ & ->). auto.
Qed.

Lemma generate_random_time_window_inv sh eh dur fh fm (w w' : World) (tw : TimeWindow) :
  generate_random_time_window sh eh dur fh fm w = Ok (tw, w') ->
  exists h w1 st en,
    selected_hour sh eh fh w = Ok (h, w1) /\
    window_bounds (w_clock w (w_reads w)) h dur = Ok (st, en) /\
    tw = (strftime ISO_FORMAT st, strftime ISO_FORMAT st,
          strftime ISO_FORMAT en, strftime ISO_FORMAT en) /\
    w' = mkWorld (w_rng w1) (w_clock w) (S (w_reads w)).
Proof.
  unfold generate_random_time_window. fold (selected_hour sh eh fh w).
  destruct (selected_hour sh eh fh w) as [[h w1]|] eqn:E; [|discriminate].
  cbn [rbind]. unfold datetime_now.
  destruct (selected_hour_clock _ _ _ _ _ _ E) as [Hc Hr].
  rewrite Hc, Hr.
  destruct (window_bounds (w_clock w (w_reads w)) h dur) as [[st en]|] eqn:E2;
    [|discriminate].
  cbn [rbind]. intro H; injection H as <- <-.
  exists h, w1, st, en. auto.
Qed.

End TimeWindowFacts.

Lemma valid_date_renderable (d : datetime) :
  valid_date d -> 0 <= hour d < 24 -> 0 <= minute d < 60 ->
  second d = 0 -> microsecond d = 0 -> renderable d.
Proof.
  intros [Hy [Hm Hd]] Hh Hmi Hs Hus.
  pose proof (days_in_month_bounds (year d) (month d)).
  unfold renderable, MINYEAR, MAXYEAR in *. repeat split; lia.
Qed.



Lemma suffix_strftime (d : datetime) :
  substring 19 5 (strftime ISO_FORMAT d) = ".000Z".
Proof. rewrite strftime_iso. reflexivity. Qed.

Lemma length_strftime (d : datetime) :
  String.length (strftime ISO_FORMAT d) = 24%nat.
Proof. rewrite strftime_iso. reflexivity. Qed.

Section TimeWindowClaims.

Context {RT : Runtime}.

(** What a returned window is, in one statement: the hour is the selected
    one, the start is tomorrow's local date at that hour sharp, the end is
    [dur] minutes later, and the four strings render these two datetimes. *)
Lemma generate_random_time_window_spec sh eh dur fh fm (w w' : World)
    (s ss e se : string) :
  wf_date (w_clock w (w_reads w)) ->
  generate_random_time_window sh eh dur fh fm w = Ok ((s, ss, e, se), w') ->
  exists h w1 st en,
    selected_hour sh eh fh w = Ok (h, w1) /\
    window_bounds (w_clock w (w_reads w)) h dur = Ok (st, en) /\
    s = strftime ISO_FORMAT st /\ ss = s /\
    e = strftime ISO_FORMAT en /\ se = e /\
    parse_iso s = Some st /\ parse_iso e = Some en /\
    0 <= h < 24 /\
    st = mkDatetime (year (next_day (w_clock w (w_reads w))))
           (month (next_day (w_clock w (w_reads w))))
           (day (next_day (w_clock w (w_reads w)))) h 0 0 0 /\
    toordinal st = toordinal (w_clock w (w_reads w)) + 1 /\
    minutes_of en = minutes_of st + dur /\
    second en = 0 /\ microsecond en = 0.
Proof.
  intros Hw H.
  apply generate_random_time_window_inv in H as (h & w1 & st & en & Hs & Hb & Htw & _).
  injection Htw as -> -> -> ->.
  destruct (window_bounds_ok _ _ _ _ _ Hw Hb)
    as (Hst & Hh & Hv & Ho & Hm & Hsec & Hus & Hve & Hhe & Hme).
  exists h, w1, st, en.
  assert (renderable st) as Rs
    by (apply valid_date_renderable; try assumption; rewrite Hst; simpl; lia).
  assert (renderable en) as Re by (apply valid_date_renderable; assumption).
  repeat split; try assumption; try reflexivity; try lia;
    apply parse_strftime_iso; assumption.
Qed.

(** C4: whatever the hour, the duration and the clock reading, a returned
    window has its soft bounds equal to its hard bounds, and its end is
    exactly [window_duration_minutes] after its start, second for second. *)
Theorem time_window_duration_exact sh eh dur fh fm (w w' : World)
    (s ss e se : string) :
  wf_date (w_clock w (w_reads w)) ->
  generate_random_time_window sh eh dur fh fm w = Ok ((s, ss, e, se), w') ->
  ss = s /\ se = e /\
  exists st en,
    parse_iso s = Some st /\ parse_iso e = Some en /\
    minutes_of en = minutes_of st + dur /\
    second en = second st /\ microsecond en = microsecond st.
Proof.
  intros Hw H.
  destruct (generate_random_time_window_spec _ _ _ _ _ _ _ _ _ _ _ Hw H)
    as (h & w1 & st & en & _ & _ & _ & Hss & _ & Hse & Ps & Pe & _ & Hst & _ & Hm & S0 & U0).
  split; [assumption|]. split; [assumption|].
  exists st, en. repeat split; try assumption.
  - rewrite S0, Hst; reflexivity.
  - rewrite U0, Hst; reflexivity.
Qed.

(** C8: whatever the clock reads, the start of a returned window is on the
    day after the local calendar date of the reading, at the selected hour,
    with minute, second and sub-second zero. *)
Theorem window_start_is_tomorrow sh eh dur fh fm (w w' : World)
    (s ss e se : string) :
  wf_date (w_clock w (w_reads w)) ->
  generate_random_time_window sh eh dur fh fm w = Ok ((s, ss, e, se), w') ->
  exists h w1 st,
    selected_hour sh eh fh w = Ok (h, w1) /\
    parse_iso s = Some st /\
    same_date st (next_day (w_clock w (w_reads w))) /\
    toordinal st = toordinal (w_clock w (w_reads w)) + 1 /\
    hour st = h /\ minute st = 0 /\ second st = 0 /\ microsecond st = 0 /\
    substring 19 5 s = ".000Z".
Proof.
  intros Hw H.
  destruct (generate_random_time_window_spec _ _ _ _ _ _ _ _ _ _ _ Hw H)
    as (h & w1 & st & en & Hsel & _ & Hs & _ & _ & _ & Ps & _ & _ & Hst & Ho & _).
  exists h, w1, st.
  split; [assumption|]. split; [assumption|].
  split; [rewrite Hst; repeat split|].
  split; [assumption|].
  rewrite Hs, suffix_strftime, Hst. simpl. auto.
Qed.

(** C7: each of the four strings of a returned window has the shape
    YYYY-MM-DDTHH:MM:SS.000Z, and reads back as the fields of the local
    datetime it was made from: no offset is applied. *)
Theorem timestamps_render_local_time sh eh dur fh fm (w w' : World)
    (s ss e se : string) :
  wf_date (w_clock w (w_reads w)) ->
  generate_random_time_window sh eh dur fh fm w = Ok ((s, ss, e, se), w') ->
  exists h w1 start_time end_time,
    selected_hour sh eh fh w = Ok (h, w1) /\
    window_bounds (w_clock w (w_reads w)) h dur = Ok (start_time, end_time) /\
    Forall (fun t => String.length t = 24%nat /\ substring 19 5 t = ".000Z")
      [s; ss; e; se] /\
    parse_iso s = Some start_time /\ parse_iso ss = Some start_time /\
    parse_iso e = Some end_time /\ parse_iso se = Some end_time.
Proof.
  intros Hw H.
  destruct (generate_random_time_window_spec _ _ _ _ _ _ _ _ _ _ _ Hw H)
    as (h & w1 & st & en & Hsel & Hb & Hs & Hss & He & Hse & Ps & Pe & _).
  exists h, w1, st, en.
  split; [assumption|]. split; [assumption|].
  subst ss se. split; [|auto].
  rewrite Hs, He.
  repeat constructor; auto using length_strftime, suffix_strftime.
Qed.

End TimeWindowClaims.

(** ** The window is produced, and when *)

Lemma year_next_day (d : datetime) :
  year d <= year (next_day d) <= year d + 1.
Proof.
  unfold next_day.
  destruct (day d <? _); [|destruct (month d <? 12)]; simpl; lia.
Qed.

Lemma shift_days_zero (d : datetime) : shift_days 0 d = d.
Proof. reflexivity. Qed.

Lemma add_minutes_total (d : datetime) (k : Z) :
  MINYEAR <= year d < MAXYEAR -> 0 <= hour d * 60 + minute d + k < 2880 ->
  exists e, add_minutes d k = Ok e.
Proof.
  intros Hy Hk. unfold add_minutes.
  assert ((hour d * 60 + minute d + k) / 1440 = 0 \/
          (hour d * 60 + minute d + k) / 1440 = 1) as [-> | ->]
    by (Z.to_euclidean_division_equations; lia).
  - rewrite shift_days_zero. eexists. apply check_year_total. simpl. lia.
  - rewrite shift_days_one. eexists. apply check_year_total. simpl.
    pose proof (year_next_day d). lia.
Qed.

Lemma window_bounds_total (now : datetime) (h dur : Z) :
  MINYEAR <= year now < MAXYEAR - 1 -> 0 <= h < 24 -> 0 <= dur <= 1440 ->
  exists st en, window_bounds now h dur = Ok (st, en).
Proof.
  intros Hy Hh Hd. unfold window_bounds, add_days.
  rewrite shift_days_one. pose proof (year_next_day now) as Hn.
  rewrite check_year_total by lia. cbn [rbind].
  unfold replace_hour_zeroed.
  assert ((0 <=? h) && (h <? 24) = true) as ->
    by (apply andb_true_iff; split; [apply Z.leb_le | apply Z.ltb_lt]; lia).
  cbn [rbind].
  destruct (add_minutes_total
              (mkDatetime (year (next_day now)) (month (next_day now))
                 (day (next_day now)) h 0 0 0) dur) as [e He];
    [simpl; lia | simpl; lia |].
  rewrite He. cbn [rbind]. eauto.
Qed.

Section TimeWindowTotal.

Context {RT : Runtime}.

(** With an hour of the day (fixed, or drawn from a non-empty range inside
    the day), a duration of at most a day and a clock not at the end of the
    calendar, the generator returns a window. *)
Lemma generate_random_time_window_total sh eh dur fh fm (w : World) :
  MINYEAR <= year (w_clock w (w_reads w)) < MAXYEAR - 1 ->
  match fh with
  | Some h => 0 <= h < 24
  | None => 0 <= sh < eh /\ eh <= 24
  end ->
  0 <= dur <= 1440 ->
  exists tw w', generate_random_time_window sh eh dur fh fm w = Ok (tw, w').
Proof.
  intros Hy Hh Hd. unfold generate_random_time_window.
  assert (exists h w1, selected_hour sh eh fh w = Ok (h, w1) /\ 0 <= h < 24 /\
                       w_clock w1 = w_clock w /\ w_reads w1 = w_reads w)
    as (h & w1 & Hsel & Hr & Hc & Hrd).
  { destruct fh as [h|]; simpl.
    - exists h, w. auto.
    - destruct (random_randint_total sh (eh - 1) w) as (k & w1 & Hk); [lia|].
      exists k, w1. split; [assumption|].
      apply random_randint_ok in Hk as (_ & _ & Hk & ->). simpl. split; [lia|auto]. }
  rewrite Hsel. cbn [rbind]. unfold datetime_now. rewrite Hc, Hrd.
  destruct (window_bounds_total (w_clock w (w_reads w)) h dur Hy Hr Hd)
    as (st & en & Hb).
  rewrite Hb. cbn [rbind]. eauto.
Qed.



End TimeWindowTotal.

(** ** The shipment rows *)

Section ShipmentRows.

Context {RT : Runtime}.

Lemma generate_random_coords_world clat clon size (w w1 : World) (c : Q * Q) :
  generate_random_coords clat clon size w = Ok (c, w1) ->
  w_clock w1 = w_clock w /\ w_reads w1 = w_reads w.
Proof.
  unfold generate_random_coords, random_uniform.
  destruct (float_div _ _) as [lon_offset|]; [|discriminate]. cbn [rbind].
  destruct (rng_random (w_rng w)) as [u1 g1]. cbn [set_rng w_rng].
  destruct (rng_random g1) as [u2 g2].
  intro H; injection H as _ <-. auto.
Qed.

Lemma generate_random_time_window_world sh eh dur fh fm (w w' : World)
    (tw : TimeWindow) :
  generate_random_time_window sh eh dur fh fm w = Ok (tw, w') ->
  w_clock w' = w_clock w /\ w_reads w' = S (w_reads w).
Proof.
  intro H.
  apply generate_random_time_window_inv in H as (h & w1 & st & en & _ & _ & _ & ->).
  auto.
Qed.

Lemma shipments_loop_inv (a : ShipmentArgs) (idx : list Z) :
  forall (w w' : World) (rows : list dict),
  shipments_loop a idx w = Ok (rows, w') ->
  Forall2 (row_made_at a (w_clock w)) idx rows /\ w_clock w' = w_clock w.
Proof.
  induction idx as [|i idx IH]; intros w w' rows H; cbn [shipments_loop] in H.
  - injection H as <- <-. split; [constructor | reflexivity].
  - destruct (generate_random_coords _ _ _ w) as [[[lat lon] w1]|] eqn:E1;
      [|discriminate].
    cbn [rbind] in H.
    destruct (generate_random_time_window 6 22 60 _ _ w1) as [[tw w2]|] eqn:E2;
      [|discriminate].
    cbn [rbind] in H.
    destruct (random_randint 1 (max_pallets a) w2) as [[p w3]|] eqn:E3;
      [|discriminate].
    cbn [rbind] in H.
    destruct (shipments_loop a idx w3) as [[rest w4]|] eqn:E4; [|discriminate].
    cbn [rbind] in H. injection H as <- <-.
    apply generate_random_coords_world in E1 as [C1 _].
    pose proof (generate_random_time_window_world _ _ _ _ _ _ _ _ E2) as [C2 _].
    apply random_randint_ok in E3 as (_ & _ & Hp & ->).
    apply IH in E4 as [F C4]. cbn [set_rng w_clock] in *.
    rewrite C2, C1 in *. split; [|assumption].
    constructor; [|assumption].
    exists lat, lon, tw, p, w1, w2. auto.
Qed.

Lemma py_range_length (n : Z) : List.length (py_range n) = Z.to_nat n.
Proof. unfold py_range. rewrite length_map, length_seq. reflexivity. Qed.

Lemma shipment_rows_inv (a : ShipmentArgs) (w w' : World) (rows : list dict) :
  shipment_rows a w = Ok (rows, w') ->
  Forall2 (row_made_at a (w_clock w)) (py_range (num_shipments a)) rows /\
  List.length rows = Z.to_nat (num_shipments a).
Proof.
  unfold shipment_rows. intro H.
  apply shipments_loop_inv in H as [F _].
  assert (forall w0, w_clock match seed a with
                             | Some s => random_seed s w0
                             | None => w0
                             end = w_clock w0) as Hc
    by (intro w0; destruct (seed a); reflexivity).
  rewrite Hc in F. split; [assumption|].
  apply Forall2_length in F. rewrite <- F. apply py_range_length.
Qed.

Lemma Forall2_Forall_r {A B : Type} (R : A -> B -> Prop) (P : B -> Prop)
    (la : list A) (lb : list B) :
  (forall x y, R x y -> P y) -> Forall2 R la lb -> Forall P lb.
Proof. intros HP F. induction F; constructor; eauto. Qed.

End ShipmentRows.

Ltac find_in := cbn [In]; repeat (first [ left; reflexivity | right ]).

Ltac drop_key k key H :=
  let E := fresh "E" in
  destruct (String.eqb k key) eqn:E;
  [ apply String.eqb_eq in E; exfalso; apply H; rewrite <- E; find_in | ].

Section ShipmentRowClaims.

Context {RT : Runtime}.

Lemma shipment_row_window (a : ShipmentArgs) (i : Z) (lat lon : Q)
    (tw : TimeWindow) (p : Z) :
  (dict_get "deliveryStartTime" (shipment_row a i lat lon tw p) "",
   dict_get "deliverySoftStartTime" (shipment_row a i lat lon tw p) "",
   dict_get "deliveryEndTime" (shipment_row a i lat lon tw p) "",
   dict_get "deliverySoftEndTime" (shipment_row a i lat lon tw p) "") = tw.
Proof. destruct tw as [[[s ss] e] se]. reflexivity. Qed.

Lemma shipment_row_pickup (a : ShipmentArgs) (i : Z) (lat lon : Q)
    (tw : TimeWindow) (p : Z) :
  dict_get "pickupArrivalWaypoint" (shipment_row a i lat lon tw p) ""
    = waypoint (depot_lat a) (depot_lon a) /\
  dict_get "pickupDuration" (shipment_row a i lat lon tw p) "" = "0" /\
  Forall (fun k => In (k, "") (shipment_row a i lat lon tw p)) pickup_blank_columns.
Proof.
  destruct tw as [[[s ss] e] se].
  split; [reflexivity|]. split; [reflexivity|].
  unfold pickup_blank_columns, shipment_row.
  repeat (constructor; [find_in|]). constructor.
Qed.

Lemma shipment_row_window_only (a : ShipmentArgs) (i : Z) (lat lon : Q)
    (tw tw' : TimeWindow) (p : Z) (key default : string) :
  ~ In key delivery_time_columns ->
  dict_get key (shipment_row a i lat lon tw p) default
    = dict_get key (shipment_row a i lat lon tw' p) default.
Proof.
  intro H. destruct tw as [[[s ss] e] se], tw' as [[[s' ss'] e'] se'].
  unfold shipment_row. cbn [dict_get].
  drop_key "deliveryStartTime" key H.
  drop_key "deliverySoftStartTime" key H.
  drop_key "deliveryEndTime" key H.
  drop_key "deliverySoftEndTime" key H.
  reflexivity.
Qed.

(** C9: in every row the pickup side is fixed: the waypoint is the depot,
    the duration is 0, the eight pickup window and cost cells are empty. The
    window that was generated, fixed pickup hour or not, fills the four
    delivery time cells and no other cell depends on it. *)
Theorem pickup_columns_fixed (a : ShipmentArgs) (w w' : World) (rows : list dict) :
  shipment_rows a w = Ok (rows, w') ->
  Forall (fun row =>
    dict_get "pickupArrivalWaypoint" row "" = waypoint (depot_lat a) (depot_lon a) /\
    dict_get "pickupDuration" row "" = "0" /\
    Forall (fun k => In (k, "") row) pickup_blank_columns /\
    exists i lat lon p tw (w1 w2 : World),
      generate_random_time_window 6 22 60 (pickup_hour a) (pickup_minute a) w1
        = Ok (tw, w2) /\
      (dict_get "deliveryStartTime" row "", dict_get "deliverySoftStartTime" row "",
       dict_get "deliveryEndTime" row "", dict_get "deliverySoftEndTime" row "") = tw /\
      forall tw' key default,
        ~ In key delivery_time_columns ->
        dict_get key row default
          = dict_get key (shipment_row a i lat lon tw' p) default) rows.
Proof.
  intro H. apply shipment_rows_inv in H as [F _].
  eapply Forall2_Forall_r; [|exact F].
  intros i row (lat & lon & tw & p & w1 & w2 & _ & Hg & _ & ->).
  destruct (shipment_row_pickup a i lat lon tw p) as (A & B & C).
  split; [assumption|]. split; [assumption|]. split; [assumption|].
  exists i, lat, lon, p, tw, w1, w2.
  split; [assumption|]. split; [apply shipment_row_window|].
  intros tw' key default Hk. apply shipment_row_window_only; assumption.
Qed.



End ShipmentRowClaims.

(** ** The CSV text *)

Lemma append_assoc (a b c : string) : (a ++ b) ++ c = a ++ (b ++ c).
Proof. induction a as [|x a IH]; simpl; [reflexivity | rewrite IH; reflexivity]. Qed.

Lemma is_special_false (c : ascii) :
  is_special c = false ->
  Ascii.eqb c COMMA = false /\ Ascii.eqb c DQUOTE = false /\ Ascii.eqb c LF = false.
Proof.
  unfold is_special. intro H.
  apply orb_false_iff in H as [H H4]. apply orb_false_iff in H as [H H3].
  apply orb_false_iff in H as [H1 H2]. auto.
Qed.

Lemma csv_scan_plain (f rest : string) (n : nat) :
  has_special f = false ->
  csv_scan (f ++ rest) false n = csv_scan rest false n.
Proof.
  induction f as [|c f IH]; intro H; simpl in *.
  - reflexivity.
  - apply orb_false_iff in H as [Hc Hf].
    apply is_special_false in Hc as (A & B & C).
    rewrite A, B, C. auto.
Qed.

Lemma csv_scan_quoted_body (f rest : string) (n : nat) :
  csv_scan (double_quotes f ++ rest) true n = csv_scan rest true n.
Proof.
  induction f as [|c f IH]; simpl.
  - reflexivity.
  - destruct (Ascii.eqb c DQUOTE) eqn:E; simpl.
    + exact IH.
    + rewrite E. simpl. exact IH.
Qed.

Lemma csv_scan_field (f rest : string) (n : nat) :
  csv_scan (csv_field f ++ rest) false n = csv_scan rest false n.
Proof.
  unfold csv_field. destruct (has_special f) eqn:E.
  - simpl. rewrite append_assoc, csv_scan_quoted_body. reflexivity.
  - apply csv_scan_plain; assumption.
Qed.

Lemma csv_scan_join (fields : list string) (rest : string) : forall n,
  fields <> [] ->
  csv_scan (join_fields fields ++ rest) false n
  = csv_scan rest false (n + (List.length fields - 1))%nat.
Proof.
  induction fields as [|f fields IH]; intros n H; [congruence|].
  destruct fields as [|g fields].
  - simpl. rewrite csv_scan_field. f_equal. lia.
  - change (join_fields (f :: g :: fields))
      with (csv_field f ++ String COMMA (join_fields (g :: fields))).
    rewrite append_assoc, csv_scan_field.
    change (String COMMA (join_fields (g :: fields)) ++ rest)
      with (String COMMA (join_fields (g :: fields) ++ rest)).
    cbn [csv_scan]. change (Ascii.eqb COMMA DQUOTE) with false.
    change (Ascii.eqb COMMA COMMA) with true. cbv iota.
    rewrite IH by discriminate. f_equal. simpl List.length. lia.
Qed.

Lemma csv_scan_crlf (rest : string) (n : nat) :
  csv_scan (CRLF ++ rest) false n = S n :: csv_scan rest false O.
Proof. reflexivity. Qed.

Lemma csv_scan_writerow (fields : list string) (rest : string) :
  fields <> [] ->
  csv_scan (writerow fields ++ rest) false O
  = List.length fields :: csv_scan rest false O.
Proof.
  intro H. unfold writerow.
  assert (csv_scan ((join_fields fields ++ CRLF) ++ rest) false O
          = List.length fields :: csv_scan rest false O) as G.
  { rewrite append_assoc, csv_scan_join, csv_scan_crlf by assumption.
    f_equal. destruct fields; [congruence | simpl; lia]. }
  destruct fields as [|f fields]; [exact G|].
  destruct f as [|c f]; [destruct fields; [reflexivity | exact G] | exact G].
Qed.

Lemma dict_to_list_length (fieldnames cells : list string) (row : dict) :
  dict_to_list fieldnames row = Ok cells ->
  List.length cells = List.length fieldnames.
Proof.
  unfold dict_to_list. destruct (forallb _ _); [|discriminate].
  intro H; injection H as <-. apply length_map.
Qed.

Lemma csv_scan_writerows (fieldnames : list string) (rows : list dict) :
  fieldnames <> [] ->
  forall body rest,
  writerows fieldnames rows = Ok body ->
  csv_scan (body ++ rest) false O
  = (repeat (List.length fieldnames) (List.length rows) ++ csv_scan rest false O)%list.
Proof.
  intro Hf. induction rows as [|r rows IH]; intros body rest H; cbn [writerows] in H.
  - injection H as <-. reflexivity.
  - destruct (dict_to_list fieldnames r) as [cells|] eqn:E; [|discriminate].
    cbn [rbind] in H.
    destruct (writerows fieldnames rows) as [tail|]; [|discriminate].
    cbn [rbind] in H. injection H as <-.
    pose proof (dict_to_list_length _ _ _ E) as L.
    rewrite append_assoc, csv_scan_writerow
      by (intros ->; destruct fieldnames; [congruence | discriminate]).
    rewrite (IH tail rest eq_refl), L. reflexivity.
Qed.

(** The text [DictWriter] writes has one line for the header and one for
    each row, each of as many cells as there are field names. *)
Lemma csv_shape_dictwriter_file (fieldnames : list string) (rows : list dict)
    (text : string) :
  fieldnames <> [] ->
  dictwriter_file fieldnames rows = Ok text ->
  csv_shape text = repeat (List.length fieldnames) (S (List.length rows)).
Proof.
  intros Hf H. unfold dictwriter_file in H.
  destruct (writerows fieldnames rows) as [body|] eqn:E; [|discriminate].
  cbn [rbind] in H. injection H as <-.
  unfold csv_shape, writeheader.
  rewrite csv_scan_writerow by assumption.
  replace body with (body ++ "") by (clear; induction body; simpl; congruence).
  rewrite (csv_scan_writerows fieldnames rows Hf body "" E).
  simpl. rewrite app_nil_r. reflexivity.
Qed.

Lemma writerows_total (fieldnames : list string) (rows : list dict) :
  Forall (fun r => forallb (fun k => mem_string k fieldnames) (dict_keys r) = true)
    rows ->
  exists body, writerows fieldnames rows = Ok body.
Proof.
  induction 1 as [|r rows Hr _ IH]; cbn [writerows].
  - eauto.
  - unfold dict_to_list. rewrite Hr. cbn [rbind].
    destruct IH as [body ->]. cbn [rbind]. eauto.
Qed.

Lemma py_range_nth (n i : Z) :
  0 <= i < n -> nth_error (py_range n) (Z.to_nat i) = Some i.
Proof.
  intro H. unfold py_range.
  rewrite nth_error_map.
  rewrite (nth_error_nth' _ O) by (rewrite length_seq; lia).
  rewrite seq_nth by lia. simpl. f_equal. lia.
Qed.

Lemma py_range_In (n i : Z) : In i (py_range n) -> 0 <= i < n.
Proof.
  unfold py_range. intro H. apply in_map_iff in H as (k & <- & Hk).
  apply in_seq in Hk. lia.
Qed.

Section FileClaims.

Context {RT : Runtime}.

Lemma shipment_row_keys (a : ShipmentArgs) (i : Z) (lat lon : Q)
    (tw : TimeWindow) (p : Z) :
  dict_keys (shipment_row a i lat lon tw p) = shipment_headers.
Proof. destruct tw as [[[s ss] e] se]. reflexivity. Qed.

Lemma headers_accept_themselves_shipments :
  forallb (fun k => mem_string k shipment_headers) shipment_headers = true.
Proof. vm_compute. reflexivity. Qed.

Lemma headers_accept_themselves_vehicles :
  forallb (fun k => mem_string k Vehicles.headers) Vehicles.headers = true.
Proof. vm_compute. reflexivity. Qed.

Lemma vehicle_row_keys (depot flag : string) (cap i : Z) :
  dict_keys (Vehicles.vehicle_row depot flag cap i) = Vehicles.headers.
Proof. reflexivity. Qed.

(** Once the rows are made, the shipment file is written: no row has a key
    outside the header. *)
Lemma generate_shipments_csv_writes (a : ShipmentArgs) (w w' : World)
    (rows : list dict) :
  shipment_rows a w = Ok (rows, w') ->
  exists text,
    generate_shipments_csv a w = Ok (text, w') /\
    dictwriter_file shipment_headers rows = Ok text.
Proof.
  intro H. unfold generate_shipments_csv. rewrite H. cbn [rbind].
  apply shipment_rows_inv in H as [F _].
  destruct (writerows_total shipment_headers rows) as [body Hb].
  { eapply Forall2_Forall_r; [|exact F].
    intros i row (lat & lon & tw & p & _ & _ & _ & _ & _ & ->).
    rewrite shipment_row_keys. exact headers_accept_themselves_shipments. }
  unfold dictwriter_file. rewrite Hb. cbn [rbind]. eauto.
Qed.

Lemma generate_vehicles_csv_writes (a : Vehicles.VehicleArgs) :
  exists text, Vehicles.generate_vehicles_csv a = Ok text.
Proof.
  unfold Vehicles.generate_vehicles_csv, dictwriter_file.
  destruct (writerows_total Vehicles.headers (Vehicles.vehicle_rows a)) as [body Hb].
  { unfold Vehicles.vehicle_rows. apply Forall_forall. intros r Hr.
    apply in_map_iff in Hr as (i & <- & _).
    rewrite vehicle_row_keys. exact headers_accept_themselves_vehicles. }
  rewrite Hb. cbn [rbind]. eauto.
Qed.

(** C3, as the code has it: a shipment file that is written has one line
    per shipment after the header line and 30 cells on every line, a quoted
    waypoint counting for one; the vehicle file is always written, with a
    header of 31 columns and 31 cells on every line. *)
Theorem csv_lines_and_cells :
  (forall (a : ShipmentArgs) (w w' : World) (text : string),
     generate_shipments_csv a w = Ok (text, w') ->
     csv_shape text = repeat 30%nat (Z.to_nat (num_shipments a) + 1)) /\
  (forall (a : Vehicles.VehicleArgs),
     exists text,
       Vehicles.generate_vehicles_csv a = Ok text /\
       csv_shape text = repeat 31%nat (Z.to_nat (Vehicles.num_vehicles a) + 1)) /\
  List.length shipment_headers = 30%nat /\
  List.length Vehicles.headers = 31%nat.
Proof.
  split; [|split; [|split; reflexivity]].
  - intros a w w' text H.
    unfold generate_shipments_csv in H.
    destruct (shipment_rows a w) as [[rows w1]|] eqn:E; [|discriminate].
    cbn [rbind] in H.
    destruct (dictwriter_file shipment_headers rows) as [t|] eqn:D; [|discriminate].
    cbn [rbind] in H. injection H as <- <-.
    apply shipment_rows_inv in E as [_ L].
    rewrite (csv_shape_dictwriter_file shipment_headers rows t) by
      (discriminate || assumption).
    rewrite L, Nat.add_1_r. reflexivity.
  - intro a. destruct (generate_vehicles_csv_writes a) as [text H].
    exists text. split; [assumption|].
    rewrite (csv_shape_dictwriter_file Vehicles.headers (Vehicles.vehicle_rows a) text)
      by (discriminate || assumption).
    unfold Vehicles.vehicle_rows. rewrite length_map, py_range_length, Nat.add_1_r.
    reflexivity.
Qed.

End FileClaims.

(** ** The vehicle rows *)

Section VehicleClaims.

Context {RT : Runtime}.

Import Vehicles.

Lemma vehicle_row_shared (depot flag : string) (cap i j : Z) (key default : string) :
  key <> "label" ->
  dict_get key (vehicle_row depot flag cap i) default
  = dict_get key (vehicle_row depot flag cap j) default.
Proof.
  intro H. unfold vehicle_row. cbn [dict_get].
  destruct (String.eqb "label" key) eqn:E.
  - apply String.eqb_eq in E. congruence.
  - reflexivity.
Qed.

Lemma vehicle_rows_In (a : VehicleArgs) (row : dict) :
  In row (vehicle_rows a) ->
  exists i, 0 <= i < num_vehicles a /\
    row = vehicle_row (float_repr (depot_lat a) ++ ", " ++ float_repr (depot_lon a))
            (if use_if_empty a then "TRUE" else "FALSE") (capacity_pallets a) i.
Proof.
  unfold vehicle_rows. intro H. apply in_map_iff in H as (i & <- & Hi).
  apply py_range_In in Hi. eauto.
Qed.

(** C10: with at least one vehicle, the i-th row (from 1) has the label
    [Vehicle - i], the travel mode DRIVING, the four costs 0, the depot as
    start and as end waypoint, TRUE or FALSE for the flag; any two rows,
    even of two runs that agree on depot, capacity and flag, have the same
    cells outside the label. *)
Theorem vehicle_rows_differ_in_label_only (a : VehicleArgs) :
  1 <= num_vehicles a ->
  let depot := float_repr (depot_lat a) ++ ", " ++ float_repr (depot_lon a) in
  List.length (vehicle_rows a) = Z.to_nat (num_vehicles a) /\
  (forall i, 1 <= i <= num_vehicles a ->
     exists row,
       nth_error (vehicle_rows a) (Z.to_nat (i - 1)) = Some row /\
       dict_keys row = headers /\
       dict_get "label" row "" = "Vehicle - " ++ str_int i /\
       dict_get "travelMode" row "" = "DRIVING" /\
       dict_get "costPerHour" row "" = "0" /\
       dict_get "costPerTraveledHour" row "" = "0" /\
       dict_get "costPerKilometer" row "" = "0" /\
       dict_get "fixedCost" row "" = "0" /\
       dict_get "startWaypoint" row "" = depot /\
       dict_get "endWaypoint" row "" = depot /\
       dict_get "usedIfRouteIsEmpty" row ""
         = (if use_if_empty a then "TRUE" else "FALSE")) /\
  (forall (a' : VehicleArgs) (r r' : dict) (key default : string),
     depot_lat a' = depot_lat a -> depot_lon a' = depot_lon a ->
     capacity_pallets a' = capacity_pallets a -> use_if_empty a' = use_if_empty a ->
     In r (vehicle_rows a) -> In r' (vehicle_rows a') ->
     key <> "label" ->
     dict_get key r default = dict_get key r' default).
Proof.
  intros Hn depot. split; [|split].
  - unfold vehicle_rows. rewrite length_map. apply py_range_length.
  - intros i Hi.
    exists (vehicle_row depot (if use_if_empty a then "TRUE" else "FALSE")
              (capacity_pallets a) (i - 1)).
    split.
    + unfold vehicle_rows. rewrite nth_error_map, py_range_nth by lia. reflexivity.
    + cbn [dict_get vehicle_row String.eqb Ascii.eqb Bool.eqb dict_keys map fst].
      replace (i - 1 + 1) with i by lia.
      repeat split; reflexivity.
  - intros a' r r' key default E1 E2 E3 E4 Hr Hr' Hk.
    apply vehicle_rows_In in Hr as (i & _ & ->).
    apply vehicle_rows_In in Hr' as (j & _ & ->).
    rewrite E1, E2, E3, E4. apply vehicle_row_shared; assumption.
Qed.

End VehicleClaims.

(** ** Two runs *)

Lemma next_day_same_date (a b : datetime) :
  same_date a b -> same_date (next_day a) (next_day b).
Proof.
  intros (Hy & Hm & Hd). unfold next_day, same_date. rewrite Hy, Hm, Hd.
  destruct (day b <? _); [|destruct (month b <? 12)]; simpl; auto.
Qed.

Lemma window_bounds_same_date (n1 n2 : datetime) (h dur : Z) :
  same_date n1 n2 -> window_bounds n1 h dur = window_bounds n2 h dur.
Proof.
  intro H. apply next_day_same_date in H as (Hy & Hm & Hd).
  unfold window_bounds, add_days.
  change (shift_days 1 n1) with (next_day n1).
  change (shift_days 1 n2) with (next_day n2).
  unfold check_year. rewrite Hy.
  destruct ((MINYEAR <=? year (next_day n2)) && (year (next_day n2) <=? MAXYEAR));
    [|reflexivity].
  cbn [rbind]. unfold replace_hour_zeroed. rewrite Hy, Hm, Hd. reflexivity.
Qed.

Section TwoRuns.

Context {RT : Runtime}.

Lemma same_view_set_rng (w1 w2 : World) (g : rng_state) :
  same_view w1 w2 -> same_view (set_rng w1 g) (set_rng w2 g).
Proof. intros [_ H]. split; [reflexivity | exact H]. Qed.

Lemma agree_output {A : Type} (r1 r2 : result (A * World)) :
  agree r1 r2 -> output r1 = output r2.
Proof.
  destruct r1 as [[x1 w1]|e1], r2 as [[x2 w2]|e2]; simpl; try tauto.
  - intros [-> _]. reflexivity.
  - intros ->. reflexivity.
Qed.

Lemma generate_random_coords_agree clat clon size (w1 w2 : World) :
  same_view w1 w2 ->
  agree (generate_random_coords clat clon size w1)
        (generate_random_coords clat clon size w2).
Proof.
  intros V. pose proof V as [Hg Hc].
  unfold generate_random_coords, random_uniform.
  destruct (float_div _ _) as [lon_offset|]; [|reflexivity]. cbn [rbind].
  rewrite Hg. destruct (rng_random (w_rng w2)) as [u1 g1]. cbn [set_rng w_rng].
  destruct (rng_random g1) as [u2 g2]. simpl.
  split; [reflexivity|]. split; [reflexivity | exact Hc].
Qed.

Lemma random_randint_agree (a b : Z) (w1 w2 : World) :
  same_view w1 w2 -> agree (random_randint a b w1) (random_randint a b w2).
Proof.
  intros V. pose proof V as [Hg Hc]. unfold random_randint.
  destruct (0 <? b + 1 - a); [|reflexivity].
  rewrite Hg. destruct (rng_randbelow _ _) as [k g]. simpl.
  split; [reflexivity|]. split; [reflexivity | exact Hc].
Qed.

Lemma selected_hour_agree sh eh fh (w1 w2 : World) :
  same_view w1 w2 -> agree (selected_hour sh eh fh w1) (selected_hour sh eh fh w2).
Proof.
  intro V. destruct fh as [h|]; simpl.
  - auto.
  - apply random_randint_agree; assumption.
Qed.

Lemma generate_random_time_window_agree sh eh dur fh fm (w1 w2 : World) :
  same_view w1 w2 ->
  agree (generate_random_time_window sh eh dur fh fm w1)
        (generate_random_time_window sh eh dur fh fm w2).
Proof.
  intro V. unfold generate_random_time_window.
  pose proof (selected_hour_agree sh eh fh w1 w2 V) as Hs.
  destruct (selected_hour sh eh fh w1) as [[h1 v1]|e1],
           (selected_hour sh eh fh w2) as [[h2 v2]|e2]; simpl in Hs; try tauto.
  destruct Hs as [<- [Hg Hc]]. cbn [rbind]. unfold datetime_now.
  pose proof (Hc O) as H0. rewrite !Nat.add_0_r in H0.
  rewrite (window_bounds_same_date _ _ h1 dur H0).
  destruct (window_bounds (w_clock v2 (w_reads v2)) h1 dur) as [[st en]|];
    [|reflexivity].
  simpl. split; [reflexivity|]. split; [assumption|].
  intro k. simpl. specialize (Hc (S k)). rewrite !Nat.add_succ_r in Hc. exact Hc.
Qed.

Lemma shipments_loop_agree (a : ShipmentArgs) (idx : list Z) :
  forall w1 w2 : World,
  same_view w1 w2 -> agree (shipments_loop a idx w1) (shipments_loop a idx w2).
Proof.
  induction idx as [|i idx IH]; intros w1 w2 V; cbn [shipments_loop].
  - simpl. auto.
  - pose proof (generate_random_coords_agree (delivery_center_lat a)
                  (delivery_center_lon a) (square_size_km a) w1 w2 V) as H1.
    destruct (generate_random_coords _ _ _ w1) as [[[lat lon] v1]|],
             (generate_random_coords _ _ _ w2) as [[[lat' lon'] v2]|];
      simpl in H1; try tauto.
    destruct H1 as [E V1]. injection E as <- <-. cbn [rbind].
    pose proof (generate_random_time_window_agree 6 22 60 (pickup_hour a)
                  (pickup_minute a) v1 v2 V1) as H2.
    destruct (generate_random_time_window _ _ _ _ _ v1) as [[tw u1]|],
             (generate_random_time_window _ _ _ _ _ v2) as [[tw' u2]|];
      simpl in H2; try tauto.
    destruct H2 as [<- V2]. cbn [rbind].
    pose proof (random_randint_agree 1 (max_pallets a) u1 u2 V2) as H3.
    destruct (random_randint _ _ u1) as [[p x1]|],
             (random_randint _ _ u2) as [[p' x2]|];
      simpl in H3; try tauto.
    destruct H3 as [<- V3]. cbn [rbind].
    pose proof (IH x1 x2 V3) as H4.
    destruct (shipments_loop a idx x1) as [[rows y1]|],
             (shipments_loop a idx x2) as [[rows' y2]|];
      simpl in H4; try tauto.
    destruct H4 as [<- V4]. simpl. auto.
Qed.

(** C2, as the code has it: with a seed given, two runs with the same
    arguments write the same text (or stop on the same exception) when their
    clocks show the same calendar date at each reading; the state the
    generator was in before seeding, and the time of day, do not matter. *)
Theorem seeded_runs_same_output (a : ShipmentArgs) (s : Z) (w1 w2 : World) :
  seed a = Some s ->
  (forall k, same_date (w_clock w1 (w_reads w1 + k)%nat)
                       (w_clock w2 (w_reads w2 + k)%nat)) ->
  output (generate_shipments_csv a w1) = output (generate_shipments_csv a w2).
Proof.
  intros Hs Hc. apply agree_output.
  unfold generate_shipments_csv, shipment_rows. rewrite Hs.
  assert (same_view (random_seed s w1) (random_seed s w2)) as V
    by (split; [reflexivity | exact Hc]).
  pose proof (shipments_loop_agree a (py_range (num_shipments a)) _ _ V) as H.
  destruct (shipments_loop a _ (random_seed s w1)) as [[rows y1]|],
           (shipments_loop a _ (random_seed s w2)) as [[rows' y2]|];
    simpl in H; try tauto.
  destruct H as [<- V']. cbn [rbind].
  destruct (dictwriter_file shipment_headers rows); simpl; auto.
Qed.

End TwoRuns.

(** ** Coordinates *)

Local Open Scope Q_scope.



Lemma float_div_ok (x y q : Q) : float_div x y = Ok q -> ~ y == 0 /\ q = x / y.
Proof.
  unfold float_div. destruct (Qeq_bool y 0) eqn:E; [discriminate|].
  intro H; injection H as <-. split; [|reflexivity].
  apply Qeq_bool_neq; assumption.
Qed.

Lemma float_div_total (x y : Q) : ~ y == 0 -> float_div x y = Ok (x / y).
Proof.
  intro H. unfold float_div.
  destruct (Qeq_bool y 0) eqn:E; [|reflexivity].
  apply Qeq_bool_iff in E. contradiction.
Qed.

Lemma float_div_zero (x y : Q) : y == 0 -> float_div x y = Raise ZeroDivisionError.
Proof.
  intro H. unfold float_div. apply Qeq_bool_iff in H. rewrite H. reflexivity.
Qed.

Lemma scaled_abs_zero (c : Q) : 111 * Qabs c == 0 <-> c == 0.
Proof.
  split; intro H.
  - assert (Qabs c == 0) as A by lra.
    pose proof (Qabs_nonneg c). pose proof (Qle_Qabs c).
    pose proof (Qle_Qabs (- c)). rewrite Qabs_opp in *. lra.
  - rewrite H. reflexivity.
Qed.



Section CoordinateClaims.

Context {RT : Runtime}.


Lemma random_uniform_world (a b : Q) (w : World) :
  snd (random_uniform a b w) = set_rng w (snd (rng_random (w_rng w))).
Proof. unfold random_uniform. destruct (rng_random (w_rng w)); reflexivity. Qed.


(** The division fails exactly when the cosine the runtime returns for the
    centre latitude is zero; nothing else in the function can fail. *)
Lemma generate_random_coords_fails_iff clat clon size (w : World) :
  generate_random_coords clat clon size w = Raise ZeroDivisionError <->
  math_cos (math_radians clat) == 0.
Proof.
  unfold generate_random_coords. split.
  - intro H.
    destruct (Qeq_dec (math_cos (math_radians clat)) 0) as [E|E]; [assumption|].
    rewrite float_div_total in H by (rewrite scaled_abs_zero; assumption).
    cbn [rbind] in H.
    destruct (random_uniform _ _ w) as [u1 w1].
    destruct (random_uniform _ _ w1) as [u2 w2]. discriminate.
  - intro E. rewrite float_div_zero by (apply scaled_abs_zero; assumption).
    reflexivity.
Qed.

Lemma generate_random_coords_total clat clon size (w : World) :
  ~ math_cos (math_radians clat) == 0 ->
  exists lat lon w', generate_random_coords clat clon size w = Ok ((lat, lon), w').
Proof.
  intro E. unfold generate_random_coords.
  rewrite float_div_total by (rewrite scaled_abs_zero; assumption).
  cbn [rbind].
  destruct (random_uniform _ _ w) as [u1 w1].
  destruct (random_uniform _ _ w1) as [u2 w2]. eauto.
Qed.


End CoordinateClaims.

Section CoordinateFailure.

Context {RT : Runtime}.

(** Nothing catches the exception: when the cosine of the delivery centre is
    zero, a run that has at least one shipment to make stops on
    [ZeroDivisionError] and writes no text. *)
Lemma zero_cosine_is_fatal (a : ShipmentArgs) (w : World) :
  (1 <= num_shipments a)%Z ->
  math_cos (math_radians (delivery_center_lat a)) == 0 ->
  generate_shipments_csv a w = Raise ZeroDivisionError.
Proof.
  intros Hn Hc. unfold generate_shipments_csv, shipment_rows, py_range.
  destruct (Z.to_nat (num_shipments a)) as [|n] eqn:E; [lia|].
  cbn [seq map shipments_loop].
  match goal with
  | |- context [generate_random_coords ?x ?y ?z ?v] =>
      replace (generate_random_coords x y z v) with
        (@Raise ((Q * Q) * World) ZeroDivisionError)
        by (symmetry; apply generate_random_coords_fails_iff; exact Hc)
  end.
  reflexivity.
Qed.

End CoordinateFailure.

Local Open Scope Z_scope.

(** ** The claims on concrete inputs *)

Import Examples.

(** [evaluate E t] runs the closed term [t] and records its value as [E]. *)
Ltac evaluate E t :=
  let v := eval vm_compute in t in
  assert (E : t = v) by (vm_cast_no_check (@eq_refl _ v)).



Lemma wf_clock_dec31 (k : nat) : wf_date (clock_dec31 k).
Proof. unfold wf_date; simpl. change (days_in_month 2024 12) with 31. lia. Defined.

Lemma wf_clock_dec31_evening (k : nat) : wf_date (clock_dec31_evening k).
Proof. unfold wf_date; simpl. change (days_in_month 2024 12) with 31. lia. Defined.

Lemma seeded_runs_same_output_witness :
  output (generate_shipments_csv (RT := reference_runtime) args world_dec31)
  = output (generate_shipments_csv (RT := reference_runtime) args world_dec31_evening).
Proof.
  apply (seeded_runs_same_output (RT := reference_runtime) args 42).
  - reflexivity.
  - intro k. repeat split.
Defined.

(** C2, as stated, fails: the same seed, the same arguments, the same
    generator state, but a run on 31 December and a run on 1 January: the
    delivery times of the two files differ. *)
Lemma runs_on_two_days_differ :
  seed args = Some 42 /\
  w_rng world_dec31 = w_rng world_jan01 /\
  output (generate_shipments_csv (RT := reference_runtime) args world_dec31)
  <> output (generate_shipments_csv (RT := reference_runtime) args world_jan01).
Proof.
  split; [reflexivity|]. split; [reflexivity|].
  intro H.
  apply (f_equal (fun r => match r with
                           | Ok text => substring 684 10 text
                           | Raise _ => ""
                           end)) in H.
  evaluate E1 (match output (generate_shipments_csv (RT := reference_runtime) args
                               world_dec31) with
               | Ok text => substring 684 10 text
               | Raise _ => ""
               end).
  evaluate E2 (match output (generate_shipments_csv (RT := reference_runtime) args
                               world_jan01) with
               | Ok text => substring 684 10 text
               | Raise _ => ""
               end).
  rewrite E1, E2 in H. discriminate H.
Defined.

Lemma csv_lines_and_cells_witness :
  exists text w',
    generate_shipments_csv (RT := reference_runtime) args world_dec31 = Ok (text, w') /\
    csv_shape text = [30; 30; 30; 30]%nat.
Proof.
  evaluate E (generate_shipments_csv (RT := reference_runtime) args world_dec31).
  eexists. eexists. split; [exact E|].
  exact (proj1 (csv_lines_and_cells (RT := reference_runtime)) args world_dec31 _ _ E).
Defined.

(** C3, as stated, fails: the lines of the shipment file have 30 cells, not
    29, and the header of the vehicle file has 31 columns, not 30. *)
Lemma lines_have_30_cells_not_29 :
  (exists text w',
     generate_shipments_csv (RT := reference_runtime) args world_dec31 = Ok (text, w') /\
     csv_shape text = [30; 30; 30; 30]%nat /\
     csv_shape text <> repeat 29%nat (Z.to_nat (num_shipments args) + 1)) /\
  (exists text,
     Vehicles.generate_vehicles_csv (RT := reference_runtime) vehicle_args = Ok text /\
     csv_shape text = [31; 31; 31]%nat) /\
  List.length Vehicles.headers <> 30%nat.
Proof.
  split; [|split].
  - evaluate E (generate_shipments_csv (RT := reference_runtime) args world_dec31).
    eexists. eexists. split; [exact E|].
    split; [vm_compute; reflexivity|]. vm_compute. discriminate.
  - evaluate E (Vehicles.generate_vehicles_csv (RT := reference_runtime) vehicle_args).
    eexists. split; [exact E|]. vm_compute. reflexivity.
  - vm_compute. discriminate.
Defined.

Lemma time_window_duration_exact_witness :
  generate_random_time_window (RT := reference_runtime) 6 22 90 (Some 23) 0 world_dec31
  = Ok (("2025-01-01T23:00:00.000Z", "2025-01-01T23:00:00.000Z",
         "2025-01-02T00:30:00.000Z", "2025-01-02T00:30:00.000Z"),
        mkWorld (G := Reference.state) words clock_dec31 1) /\
  exists st en,
    parse_iso "2025-01-01T23:00:00.000Z" = Some st /\
    parse_iso "2025-01-02T00:30:00.000Z" = Some en /\
    minutes_of en = minutes_of st + 90.
Proof.
  assert (generate_random_time_window (RT := reference_runtime) 6 22 90 (Some 23) 0
            world_dec31
          = Ok (("2025-01-01T23:00:00.000Z", "2025-01-01T23:00:00.000Z",
                 "2025-01-02T00:30:00.000Z", "2025-01-02T00:30:00.000Z"),
                mkWorld (G := Reference.state) words clock_dec31 1)) as E
    by (vm_compute; reflexivity).
  split; [exact E|].
  destruct (time_window_duration_exact (RT := reference_runtime) 6 22 90 (Some 23) 0
              world_dec31 _ _ _ _ _
              (wf_clock_dec31 0) E) as (_ & _ & st & en & Ps & Pe & Hm & _).
  exists st, en. auto.
Defined.

Lemma window_start_is_tomorrow_witness :
  exists st,
    parse_iso "2025-01-01T17:00:00.000Z" = Some st /\
    same_date st (mkDatetime 2025 1 1 0 0 0 0) /\
    hour st = 17 /\ minute st = 0 /\ second st = 0 /\ microsecond st = 0.
Proof.
  assert (generate_random_time_window (RT := reference_runtime) 6 22 60 None 0
            world_dec31_evening
          = Ok (("2025-01-01T17:00:00.000Z", "2025-01-01T17:00:00.000Z",
                 "2025-01-01T18:00:00.000Z", "2025-01-01T18:00:00.000Z"),
                mkWorld (G := Reference.state) [13] clock_dec31_evening 5)) as E
    by (vm_compute; reflexivity).
  destruct (window_start_is_tomorrow (RT := reference_runtime) 6 22 60 None 0
              world_dec31_evening _ _ _ _ _
              (wf_clock_dec31_evening 4) E)
    as (h & w1 & st & Hsel & Ps & Hd & _ & Hh & Hm & Hs & Hu & _).
  exists st. cbn in Hsel. injection Hsel as <- _.
  repeat split; try assumption; apply Hd.
Defined.

Lemma timestamps_render_local_time_witness :
  exists start_time end_time,
    window_bounds (clock_dec31 0) 23 90 = Ok (start_time, end_time) /\
    parse_iso "2025-01-01T23:00:00.000Z" = Some start_time /\
    parse_iso "2025-01-02T00:30:00.000Z" = Some end_time.
Proof.
  assert (generate_random_time_window (RT := reference_runtime) 6 22 90 (Some 23) 0
            world_dec31
          = Ok (("2025-01-01T23:00:00.000Z", "2025-01-01T23:00:00.000Z",
                 "2025-01-02T00:30:00.000Z", "2025-01-02T00:30:00.000Z"),
                mkWorld (G := Reference.state) words clock_dec31 1)) as E
    by (vm_compute; reflexivity).
  destruct (timestamps_render_local_time (RT := reference_runtime) 6 22 90 (Some 23) 0
              world_dec31 _ _ _ _ _
              (wf_clock_dec31 0) E)
    as (h & w1 & st & en & Hsel & Hb & _ & Ps & _ & Pe & _).
  simpl in Hsel. injection Hsel as <- _.
  exists st, en. auto.
Defined.


Lemma pickup_columns_fixed_witness :
  exists rows w',
    shipment_rows (RT := reference_runtime) args world_dec31 = Ok (rows, w') /\
    Forall (fun row => dict_get "pickupDuration" row "" = "0" /\
                       Forall (fun k => In (k, "") row) pickup_blank_columns) rows.
Proof.
  evaluate E (shipment_rows (RT := reference_runtime) args world_dec31).
  eexists. eexists. split; [exact E|].
  pose proof (pickup_columns_fixed (RT := reference_runtime) args world_dec31 _ _ E)
    as H.
  eapply Forall_impl; [|exact H]. intros row (_ & A & B & _). auto.
Defined.

Lemma vehicle_rows_differ_in_label_only_witness :
  1 <= Vehicles.num_vehicles vehicle_args /\
  List.length (Vehicles.vehicle_rows (RT := reference_runtime) vehicle_args) = 2%nat.
Proof.
  assert (1 <= Vehicles.num_vehicles vehicle_args) as H by (simpl; lia).
  split; [exact H|].
  exact (proj1 (vehicle_rows_differ_in_label_only (RT := reference_runtime)
                  vehicle_args H)).
Defined.

(** * Further properties of the generators *)

(** ** Coordinates: any square size, the grid, the draws *)

Local Open Scope Q_scope.

Lemma round_half_even_comp (x y : Q) :
  x == y -> round_half_even x = round_half_even y.
Proof.
  intro E. unfold round_half_even.
  rewrite (Qfloor_comp x y E).
  assert (x - inject_Z (Qfloor y) == y - inject_Z (Qfloor y)) as E2
    by (rewrite E; reflexivity).
  rewrite (Qcompare_comp _ _ E2 (1 # 2) (1 # 2) (Qeq_refl _)). reflexivity.
Qed.


Lemma round_half_even_Z (z : Z) : round_half_even (inject_Z z) = z.
Proof.
  unfold round_half_even. rewrite Qfloor_Z.
  assert (inject_Z z - inject_Z z == 0) as E by ring.
  rewrite (Qcompare_comp _ _ E (1 # 2) (1 # 2) (Qeq_refl _)). reflexivity.
Qed.

(** Rounding what is already rounded changes nothing. *)
Lemma py_round_8_idempotent (x : Q) : py_round (py_round x 8) 8 = py_round x 8.
Proof.
  unfold py_round at 1 3.
  change (inject_Z (10 ^ 8)) with 100000000.
  set (z := round_half_even (x * 100000000)).
  rewrite (round_half_even_comp (py_round x 8 * 100000000) (inject_Z z)).
  - rewrite round_half_even_Z. reflexivity.
  - unfold py_round. change (inject_Z (10 ^ 8)) with 100000000. fold z. field.
Qed.

Lemma Qabs_Qabs (x : Q) : Qabs (Qabs x) == Qabs x.
Proof. apply Qabs_pos, Qabs_nonneg. Qed.

Lemma lon_offset_abs_any (size c : Q) :
  Qabs (size / 2 / (111 * Qabs c)) == Qabs (size / 2 / (111 * c)).
Proof.
  unfold Qdiv at 1 3.
  rewrite !Qabs_Qmult, !Qabs_Qinv, !Qabs_Qmult, Qabs_Qabs. reflexivity.
Qed.

Section MoreCoordinates.

Context {RT : Runtime}.

(** [uniform(-o, o)] stays within [|o|] of zero, whatever the sign of [o]. *)
Lemma random_uniform_symmetric (o : Q) (w : World) :
  Qabs (fst (random_uniform (- o) o w)) <= Qabs o.
Proof.
  unfold random_uniform.
  pose proof (rng_random_unit (w_rng w)) as [U0 U1].
  destruct (rng_random (w_rng w)) as [u g]. cbn [fst] in *.
  apply Qabs_Qle_condition.
  destruct (Qlt_le_dec o 0) as [Ho | Ho].
  - rewrite (Qabs_neg o) by lra.
    assert (0 <= (- o) * u) by (apply Qmult_le_0_compat; lra).
    assert (0 <= (- o) * (1 - u)) by (apply Qmult_le_0_compat; lra).
    split; lra.
  - rewrite (Qabs_pos o) by lra.
    assert (0 <= o * u) by (apply Qmult_le_0_compat; lra).
    assert (0 <= o * (1 - u)) by (apply Qmult_le_0_compat; lra).
    split; lra.
Qed.

(** The two samples before rounding, for any square size. *)
Lemma generate_random_coords_raw clat clon size (w w' : World) (lat lon : Q) :
  generate_random_coords clat clon size w = Ok ((lat, lon), w') ->
  exists raw_lat raw_lon,
    lat = py_round raw_lat 8 /\ lon = py_round raw_lon 8 /\
    Qabs (raw_lat - clat) <= Qabs (size / 2 / 111) /\
    Qabs (raw_lon - clon) <= Qabs (size / 2 / (111 * math_cos (math_radians clat))) /\
    w' = set_rng w (snd (rng_random (snd (rng_random (w_rng w))))).
Proof.
  unfold generate_random_coords.
  destruct (float_div _ _) as [lon_offset|] eqn:E; [|discriminate].
  apply float_div_ok in E as [Hnz ->]. cbn [rbind].
  set (lat_offset := size / 2 / 111).
  set (lon_offset := size / 2 / (111 * Qabs (math_cos (math_radians clat)))).
  pose proof (random_uniform_symmetric lat_offset w) as R1.
  pose proof (random_uniform_world (- lat_offset) lat_offset w) as W1.
  destruct (random_uniform (- lat_offset) lat_offset w) as [u1 w1].
  pose proof (random_uniform_symmetric lon_offset w1) as R2.
  pose proof (random_uniform_world (- lon_offset) lon_offset w1) as W2.
  destruct (random_uniform (- lon_offset) lon_offset w1) as [u2 w2].
  cbn [fst snd] in R1, R2, W1, W2. intro H; injection H as <- <- <-.
  exists (clat + u1), (clon + u2).
  split; [reflexivity|]. split; [reflexivity|].
  split; [|split].
  - assert (clat + u1 - clat == u1) as -> by ring. exact R1.
  - assert (clon + u2 - clon == u2) as -> by ring.
    unfold lon_offset in R2. rewrite lon_offset_abs_any in R2. exact R2.
  - subst w2 w1. reflexivity.
Qed.




(** X3: the returned coordinates have at most eight decimals: rounding
    them again to eight decimals gives them back. *)
Theorem coords_on_grid clat clon size (w w' : World) (lat lon : Q) :
  generate_random_coords clat clon size w = Ok ((lat, lon), w') ->
  py_round lat 8 = lat /\ py_round lon 8 = lon.
Proof.
  intro H.
  apply generate_random_coords_raw in H as (rlat & rlon & -> & -> & _).
  split; apply py_round_8_idempotent.
Qed.



End MoreCoordinates.

Local Open Scope Z_scope.

(** ** The time window: errors, the clock *)

Lemma check_year_raise (d : datetime) :
  ~ (MINYEAR <= year d <= MAXYEAR) -> check_year d = Raise OverflowError.
Proof.
  intro H. unfold check_year.
  destruct ((MINYEAR <=? year d) && (year d <=? MAXYEAR)) eqn:E; [|reflexivity].
  apply andb_true_iff in E as [A B]; bool_to_prop. lia.
Qed.



Lemma window_bounds_last_day (now : datetime) (h dur : Z) :
  year now = MAXYEAR -> month now = 12 -> day now = 31 ->
  window_bounds now h dur = Raise OverflowError.
Proof.
  intros Hy Hm Hd. unfold window_bounds, add_days.
  change (shift_days 1 now) with (next_day now).
  rewrite check_year_raise; [reflexivity|].
  unfold next_day. rewrite Hy, Hm, Hd. simpl. unfold MINYEAR, MAXYEAR. lia.
Qed.

Section MoreTimeWindow.

Context {RT : Runtime}.


(** X7: without a fixed hour, an empty range of hours is refused with
    [ValueError], whatever the clock reads. *)
Theorem empty_hour_range sh eh dur fm (w : World) :
  eh <= sh ->
  generate_random_time_window sh eh dur None fm w = Raise ValueError.
Proof.
  intro H. unfold generate_random_time_window. cbn [selected_hour].
  unfold random_randint.
  assert ((0 <? eh - 1 + 1 - sh) = false) as -> by (apply Z.ltb_ge; lia).
  reflexivity.
Qed.

(** X8: on the last day of the calendar there is no tomorrow: with an hour
    fixed or drawn, the call stops on [OverflowError]. *)
Theorem last_day_overflows sh eh dur fh fm (w : World) :
  year (w_clock w (w_reads w)) = MAXYEAR ->
  month (w_clock w (w_reads w)) = 12 -> day (w_clock w (w_reads w)) = 31 ->
  match fh with Some _ => True | None => sh < eh end ->
  generate_random_time_window sh eh dur fh fm w = Raise OverflowError.
Proof.
  intros Hy Hm Hd Hr. unfold generate_random_time_window.
  destruct (selected_hour sh eh fh w) as [[h w1]|e] eqn:E.
  - cbn [rbind]. unfold datetime_now.
    destruct (selected_hour_clock _ _ _ _ _ _ E) as [-> ->].
    rewrite window_bounds_last_day by assumption. reflexivity.
  - destruct fh as [x|]; [discriminate|]. simpl in E.
    destruct (random_randint_total sh (eh - 1) w) as (k & w1 & Hk); [lia|].
    congruence.
Qed.

(** X9: a window that is returned has cost one reading of the clock, and
    no draw when the hour is fixed, one draw of [_randbelow] otherwise. *)
Theorem time_window_effects sh eh dur fh fm (w w' : World) (tw : TimeWindow) :
  generate_random_time_window sh eh dur fh fm w = Ok (tw, w') ->
  w_clock w' = w_clock w /\ w_reads w' = S (w_reads w) /\
  w_rng w' = match fh with
             | Some _ => w_rng w
             | None => snd (rng_randbelow (eh - sh) (w_rng w))
             end.
Proof.
  intro H.
  apply generate_random_time_window_inv in H as (h & w1 & st & en & Hs & _ & _ & ->).
  split; [reflexivity|]. split; [reflexivity|]. cbn [w_rng].
  destruct fh as [x|]; simpl in Hs.
  - injection Hs as _ <-. reflexivity.
  - apply random_randint_ok in Hs as (_ & _ & _ & ->).
    replace (eh - 1 + 1 - sh) with (eh - sh) by lia. reflexivity.
Qed.

(** X10: the window depends on the date of the clock reading only: two
    worlds in the same generator state whose clocks read the same date, at
    whatever time of day, give the same four strings. *)
Theorem time_of_day_is_ignored sh eh dur fh fm (w1 w2 : World) :
  w_rng w1 = w_rng w2 ->
  same_date (w_clock w1 (w_reads w1)) (w_clock w2 (w_reads w2)) ->
  output (generate_random_time_window sh eh dur fh fm w1)
  = output (generate_random_time_window sh eh dur fh fm w2).
Proof.
  intros Hg Hd. unfold generate_random_time_window.
  assert (forall w : World,
            selected_hour sh eh fh w
            = match fh with
              | Some h => Ok (h, w)
              | None =>
                  if 0 <? eh - 1 + 1 - sh then
                    Ok (sh + fst (rng_randbelow (eh - 1 + 1 - sh) (w_rng w)),
                        set_rng w (snd (rng_randbelow (eh - 1 + 1 - sh) (w_rng w))))
                  else Raise ValueError
              end) as Hsel.
  { intro w. destruct fh; [reflexivity|]. simpl. unfold random_randint.
    destruct (0 <? eh - 1 + 1 - sh); [|reflexivity].
    destruct (rng_randbelow _ _); reflexivity. }
  rewrite !Hsel, Hg.
  destruct fh as [h|]; [|destruct (0 <? eh - 1 + 1 - sh); [|reflexivity]];
    cbn [rbind]; unfold datetime_now; cbn [set_rng w_clock w_reads];
    rewrite (window_bounds_same_date _ _ _ dur Hd);
    destruct (window_bounds _ _ dur) as [[st en]|]; reflexivity.
Qed.

End MoreTimeWindow.

(** ** Integers as text *)

Lemma int_of_str_str_int (n : Z) : int_of_str (str_int n) = Some n.
Proof.
  unfold int_of_str, str_int.
  rewrite NilZero.isi.
  - simpl. rewrite DecimalZ.of_to. reflexivity.
  - destruct n; simpl; try discriminate.
    intro H; injection H as H. exact (DecimalPos.Unsigned.to_uint_nonnil _ H).
  - destruct n; simpl; try discriminate.
    intro H; injection H as H. exact (DecimalPos.Unsigned.to_uint_nonnil _ H).
Qed.

Lemma str_int_inj (n m : Z) : str_int n = str_int m -> n = m.
Proof.
  intro H. apply (f_equal int_of_str) in H.
  rewrite !int_of_str_str_int in H. congruence.
Qed.

Lemma append_inj_l (p a b : string) : p ++ a = p ++ b -> a = b.
Proof. induction p as [|c p IH]; simpl; intro H; [assumption|]. injection H; auto. Qed.

(** ** The window of the driver *)

Lemma add_minutes_same_day (d : datetime) (k : Z) :
  MINYEAR <= year d <= MAXYEAR ->
  0 <= hour d * 60 + minute d + k < 1440 ->
  add_minutes d k
  = Ok (mkDatetime (year d) (month d) (day d)
          ((hour d * 60 + minute d + k) / 60) ((hour d * 60 + minute d + k) mod 60)
          (second d) (microsecond d)).
Proof.
  intros Hy Hk. unfold add_minutes.
  rewrite Z.div_small, Z.mod_small by assumption.
  rewrite shift_days_zero. apply check_year_total. exact Hy.
Qed.

Lemma add_minutes_next_day (d : datetime) (k : Z) :
  MINYEAR <= year (next_day d) <= MAXYEAR ->
  1440 <= hour d * 60 + minute d + k < 2880 ->
  add_minutes d k
  = Ok (mkDatetime (year (next_day d)) (month (next_day d)) (day (next_day d))
          ((hour d * 60 + minute d + k - 1440) / 60)
          ((hour d * 60 + minute d + k - 1440) mod 60)
          (second d) (microsecond d)).
Proof.
  intros Hy Hk. unfold add_minutes.
  assert ((hour d * 60 + minute d + k) / 1440 = 1) as ->
    by (Z.to_euclidean_division_equations; lia).
  assert ((hour d * 60 + minute d + k) mod 1440 = hour d * 60 + minute d + k - 1440)
    as -> by (Z.to_euclidean_division_equations; lia).
  rewrite shift_days_one. apply check_year_total. exact Hy.
Qed.

(** The window of one hour that the driver asks for, when the hour is
    before 23: it ends on the same day, one hour later. *)
Lemma window_bounds_hour (now : datetime) (h : Z) :
  MINYEAR <= year (next_day now) <= MAXYEAR -> 0 <= h < 23 ->
  window_bounds now h 60
  = Ok (mkDatetime (year (next_day now)) (month (next_day now)) (day (next_day now))
          h 0 0 0,
        mkDatetime (year (next_day now)) (month (next_day now)) (day (next_day now))
          (h + 1) 0 0 0).
Proof.
  intros Hy Hh. unfold window_bounds, add_days.
  change (shift_days 1 now) with (next_day now).
  rewrite check_year_total by assumption. cbn [rbind].
  unfold replace_hour_zeroed.
  assert ((0 <=? h) && (h <? 24) = true) as ->
    by (apply andb_true_iff; split; [apply Z.leb_le | apply Z.ltb_lt]; lia).
  cbn [rbind].
  rewrite add_minutes_same_day; cbn [year month day hour minute second microsecond];
    [|assumption|lia].
  cbn [rbind].
  replace ((h * 60 + 0 + 60) / 60) with (h + 1)
    by (Z.to_euclidean_division_equations; lia).
  replace ((h * 60 + 0 + 60) mod 60) with 0
    by (Z.to_euclidean_division_equations; lia).
  reflexivity.
Qed.

(** At 23 the window of one hour ends at midnight, on the day after. *)
Lemma window_bounds_hour_23 (now : datetime) :
  wf_date now ->
  MINYEAR <= year (next_day now) /\ year (next_day (next_day now)) <= MAXYEAR ->
  window_bounds now 23 60
  = Ok (mkDatetime (year (next_day now)) (month (next_day now)) (day (next_day now))
          23 0 0 0,
        mkDatetime (year (next_day (next_day now))) (month (next_day (next_day now)))
          (day (next_day (next_day now))) 0 0 0 0).
Proof.
  intros Hw [Hy1 Hy2]. unfold window_bounds, add_days.
  change (shift_days 1 now) with (next_day now).
  pose proof (year_next_day (next_day now)) as Hn.
  rewrite check_year_total by lia. cbn [rbind].
  cbn [replace_hour_zeroed Z.leb Z.ltb Z.compare Pos.compare Pos.compare_cont andb rbind].
  set (base := mkDatetime _ _ _ 23 0 0 0).
  assert (same_date (next_day base) (next_day (next_day now))) as (A & B & C)
    by (apply next_day_same_date; repeat split).
  rewrite add_minutes_next_day; cbn [hour minute second microsecond];
    [|rewrite A; lia | unfold base; cbn [hour minute]; lia].
  cbn [rbind]. rewrite A, B, C. reflexivity.
Qed.

(** ** The driver: when it completes, when it stops *)

Section MoreShipments.

Context {RT : Runtime}.

Lemma shipments_loop_total (a : ShipmentArgs) (idx : list Z) :
  rows_can_be_made a ->
  forall w : World, clock_has_room (w_clock w) ->
  exists rows w', shipments_loop a idx w = Ok (rows, w').
Proof.
  intros (Hc & Hp & Hh). induction idx as [|i idx IH]; intros w Hk; cbn [shipments_loop].
  - eauto.
  - destruct (generate_random_coords_total (delivery_center_lat a)
                (delivery_center_lon a) (square_size_km a) w Hc)
      as (lat & lon & w1 & E1).
    rewrite E1. cbn [rbind].
    apply generate_random_coords_world in E1 as [C1 _].
    destruct (generate_random_time_window_total 6 22 60 (pickup_hour a)
                (pickup_minute a) w1) as (tw & w2 & E2).
    { rewrite C1. apply Hk. }
    { destruct (pickup_hour a); [assumption | lia]. }
    { lia. }
    rewrite E2. cbn [rbind].
    apply generate_random_time_window_world in E2 as [C2 _].
    destruct (random_randint_total 1 (max_pallets a) w2 Hp) as (p & w3 & E3).
    rewrite E3. cbn [rbind].
    apply random_randint_ok in E3 as (_ & _ & _ & ->).
    destruct (IH (set_rng w2 (snd (rng_randbelow (max_pallets a + 1 - 1) (w_rng w2)))))
      as (rows & w4 & E4).
    { cbn [set_rng w_clock]. rewrite C2, C1. exact Hk. }
    rewrite E4. cbn [rbind]. eauto.
Qed.

(** X11: the run completes, and writes a file, whenever the cosine of the
    delivery centre is not zero, [max_pallets] is at least 1, the pickup hour
    is absent or an hour of the day, and the clock is not within two years of
    the end of the calendar. *)
Theorem shipments_run_completes (a : ShipmentArgs) (w : World) :
  rows_can_be_made a -> clock_has_room (w_clock w) ->
  exists text w', generate_shipments_csv a w = Ok (text, w').
Proof.
  intros Ha Hk.
  destruct (shipments_loop_total a (py_range (num_shipments a)) Ha
              (match seed a with Some s => random_seed s w | None => w end))
    as (rows & w' & E).
  { destruct (seed a); exact Hk. }
  destruct (generate_shipments_csv_writes a w w' rows E) as (text & H & _).
  eauto.
Qed.

Lemma py_range_cons (n : Z) :
  1 <= n -> exists rest, py_range n = 0 :: rest.
Proof.
  intro H. unfold py_range.
  destruct (Z.to_nat n) as [|k] eqn:E; [lia|]. simpl. eauto.
Qed.

Lemma py_range_nil (n : Z) : n <= 0 -> py_range n = [].
Proof.
  intro H. unfold py_range. replace (Z.to_nat n) with O by lia. reflexivity.
Qed.

(** X12: with no shipment to make (a count of zero or less) nothing is
    drawn, the clock is not read and nothing can fail: the file is the
    header line alone. *)
Theorem no_shipments_header_only (a : ShipmentArgs) (w : World) :
  num_shipments a <= 0 ->
  generate_shipments_csv a w
  = Ok (writeheader shipment_headers,
        match seed a with Some s => random_seed s w | None => w end).
Proof.
  intro H. unfold generate_shipments_csv, shipment_rows.
  rewrite py_range_nil by assumption. reflexivity.
Qed.


(** X14: a [max_pallets] below 1 stops the run on [ValueError] at the
    first shipment, after its coordinates and its window were made. *)
Theorem no_pallets_is_fatal (a : ShipmentArgs) (w : World) :
  1 <= num_shipments a ->
  ~ (math_cos (math_radians (delivery_center_lat a)) == 0)%Q ->
  match pickup_hour a with
  | Some h => 0 <= h < 24
  | None => True
  end ->
  clock_has_room (w_clock w) ->
  max_pallets a < 1 ->
  generate_shipments_csv a w = Raise ValueError.
Proof.
  intros Hn Hc Hh Hk Hp.
  unfold generate_shipments_csv, shipment_rows.
  destruct (py_range_cons _ Hn) as [rest ->].
  set (w0 := match seed a with Some s => random_seed s w | None => w end).
  assert (w_clock w0 = w_clock w) as K0 by (unfold w0; destruct (seed a); auto).
  cbn [shipments_loop].
  destruct (generate_random_coords_total (delivery_center_lat a)
              (delivery_center_lon a) (square_size_km a) w0 Hc)
    as (lat & lon & w1 & E1).
  rewrite E1. cbn [rbind].
  apply generate_random_coords_world in E1 as [C1 _].
  destruct (generate_random_time_window_total 6 22 60 (pickup_hour a)
              (pickup_minute a) w1) as (tw & w2 & E2).
  { rewrite C1, K0. apply Hk. }
  { destruct (pickup_hour a); [assumption | lia]. }
  { lia. }
  rewrite E2. cbn [rbind]. unfold random_randint.
  assert ((0 <? max_pallets a + 1 - 1) = false) as -> by (apply Z.ltb_ge; lia).
  reflexivity.
Qed.

End MoreShipments.

(** ** The rows: labels, loads, windows, the clock *)

Section MoreRows.

Context {RT : Runtime}.

Lemma shipment_row_label (a : ShipmentArgs) (i : Z) (lat lon : Q)
    (tw : TimeWindow) (p : Z) :
  dict_get "label" (shipment_row a i lat lon tw p) "" = "Order - " ++ str_int (i + 1)
  /\ dict_get "loadDemand1Value" (shipment_row a i lat lon tw p) "" = str_int p.
Proof. destruct tw as [[[s ss] e] se]. split; reflexivity. Qed.

Lemma Forall2_map_eq {A B C : Type} (R : A -> B -> Prop) (f : A -> C) (g : B -> C)
    (la : list A) (lb : list B) :
  (forall x y, R x y -> g y = f x) -> Forall2 R la lb -> map g lb = map f la.
Proof.
  intros H F. induction F as [|x y la lb Hxy _ IH]; simpl; [reflexivity|].
  rewrite IH, (H x y Hxy). reflexivity.
Qed.

Lemma py_range_NoDup (n : Z) : NoDup (py_range n).
Proof.
  unfold py_range. apply Injective_map_NoDup.
  - intros x y H. lia.
  - apply seq_NoDup.
Qed.

(** X15: the rows are labelled [Order - 1], [Order - 2], ... in the order
    they are written, and no two rows have the same label. *)
Theorem shipment_labels (a : ShipmentArgs) (w w' : World) (rows : list dict) :
  shipment_rows a w = Ok (rows, w') ->
  map (fun row => dict_get "label" row "") rows
  = map (fun i => "Order - " ++ str_int (i + 1)) (py_range (num_shipments a)) /\
  NoDup (map (fun row => dict_get "label" row "") rows).
Proof.
  intro H. apply shipment_rows_inv in H as [F _].
  assert (map (fun row => dict_get "label" row "") rows
          = map (fun i => "Order - " ++ str_int (i + 1)) (py_range (num_shipments a)))
    as E.
  { eapply Forall2_map_eq; [|exact F].
    intros i row (lat & lon & tw & p & _ & _ & _ & _ & _ & ->).
    apply shipment_row_label. }
  split; [exact E|]. rewrite E.
  apply Injective_map_NoDup; [|apply py_range_NoDup].
  intros x y Hxy. apply append_inj_l, str_int_inj in Hxy. lia.
Qed.

(** X16: the load of every row is a whole number of pallets between 1 and
    [max_pallets], written in decimal: [int] reads it back. *)
Theorem shipment_pallets (a : ShipmentArgs) (w w' : World) (rows : list dict) :
  shipment_rows a w = Ok (rows, w') ->
  Forall (fun row =>
            dict_get "loadDemand1Type" row "" = "pallets" /\
            exists p, 1 <= p <= max_pallets a /\
                      int_of_str (dict_get "loadDemand1Value" row "") = Some p) rows.
Proof.
  intro H. apply shipment_rows_inv in H as [F _].
  eapply Forall2_Forall_r; [|exact F].
  intros i row (lat & lon & tw & p & _ & _ & _ & _ & Hp & ->).
  split; [destruct tw as [[[s ss] e] se]; reflexivity|].
  exists p. split; [assumption|].
  rewrite (proj2 (shipment_row_label a i lat lon tw p)). apply int_of_str_str_int.
Qed.

(** X17: without a pickup hour, the delivery window of every row starts at
    an hour from 06 to 21 sharp on the day after the clock's date and ends
    at the next hour of the same day. *)
Theorem delivery_windows_inside_day (a : ShipmentArgs) (w w' : World)
    (rows : list dict) :
  pickup_hour a = None ->
  (forall k, wf_date (w_clock w k)) ->
  shipment_rows a w = Ok (rows, w') ->
  Forall (fun row =>
            exists st en,
              parse_iso (dict_get "deliveryStartTime" row "") = Some st /\
              parse_iso (dict_get "deliveryEndTime" row "") = Some en /\
              6 <= hour st <= 21 /\ hour en = hour st + 1 /\
              minute st = 0 /\ minute en = 0 /\ same_date st en) rows.
Proof.
  intros Hp Hc H. apply shipment_rows_inv in H as [F _].
  eapply Forall2_Forall_r; [|exact F].
  intros i row (lat & lon & tw & p & w1 & w2 & Hw1 & Hg & _ & ->).
  destruct tw as [[[s ss] e] se]. rewrite Hp in Hg.
  assert (wf_date (w_clock w1 (w_reads w1))) as Hwf by (rewrite Hw1; apply Hc).
  destruct (generate_random_time_window_spec _ _ _ _ _ _ _ _ _ _ _ Hwf Hg)
    as (h & v & st & en & Hsel & Hb & _ & _ & _ & _ & Ps & Pe & _ & _ & _).
  simpl in Hsel. apply random_randint_ok in Hsel as (_ & _ & Hr & _).
  pose proof Hb as Hb'. unfold window_bounds, add_days in Hb'.
  change (shift_days 1 (w_clock w1 (w_reads w1)))
    with (next_day (w_clock w1 (w_reads w1))) in Hb'.
  destruct (check_year (next_day (w_clock w1 (w_reads w1)))) as [t|] eqn:Ey;
    [|discriminate].
  apply check_year_ok in Ey as [_ Hy]. clear Hb'.
  rewrite window_bounds_hour in Hb by (assumption || lia).
  injection Hb as <- <-.
  exists (mkDatetime (year (next_day (w_clock w1 (w_reads w1))))
            (month (next_day (w_clock w1 (w_reads w1))))
            (day (next_day (w_clock w1 (w_reads w1)))) h 0 0 0),
         (mkDatetime (year (next_day (w_clock w1 (w_reads w1))))
            (month (next_day (w_clock w1 (w_reads w1))))
            (day (next_day (w_clock w1 (w_reads w1)))) (h + 1) 0 0 0).
  split; [exact Ps|]. split; [exact Pe|]. cbn. repeat split; lia.
Qed.

(** X18: with a pickup hour given, the delivery window of every row starts
    at that hour and lasts sixty minutes: it ends at the next hour of the same
    day, or, when the hour is 23, at 00:00 of the day after. *)
Theorem fixed_pickup_windows (a : ShipmentArgs) (h : Z) (w w' : World)
    (rows : list dict) :
  pickup_hour a = Some h ->
  (forall k, wf_date (w_clock w k)) ->
  shipment_rows a w = Ok (rows, w') ->
  Forall (fun row =>
            exists st en,
              parse_iso (dict_get "deliveryStartTime" row "") = Some st /\
              parse_iso (dict_get "deliveryEndTime" row "") = Some en /\
              hour st = h /\ minute st = 0 /\ minute en = 0 /\
              minutes_of en = minutes_of st + 60 /\
              (h < 23 -> toordinal en = toordinal st /\ hour en = h + 1) /\
              (h = 23 -> toordinal en = toordinal st + 1 /\ hour en = 0)) rows.
Proof.
  intros Hp Hc H. apply shipment_rows_inv in H as [F _].
  eapply Forall2_Forall_r; [|exact F].
  intros i row (lat & lon & tw & p & w1 & w2 & Hw1 & Hg & _ & ->).
  destruct tw as [[[s ss] e] se]. rewrite Hp in Hg.
  assert (wf_date (w_clock w1 (w_reads w1))) as Hwf by (rewrite Hw1; apply Hc).
  destruct (generate_random_time_window_spec _ _ _ _ _ _ _ _ _ _ _ Hwf Hg)
    as (h' & v & st & en & Hsel & Hb & _ & _ & _ & _ & Ps & Pe & _ & _ & _).
  simpl in Hsel. injection Hsel as <- <-.
  destruct (window_bounds_ok _ _ _ _ _ Hwf Hb)
    as (Hst & Hh & _ & _ & Hm & _ & _ & _ & Hhe & Hme).
  exists st, en. split; [exact Ps|]. split; [exact Pe|].
  assert (hour st = h /\ minute st = 0) as [Hs1 Hs2] by (rewrite Hst; auto).
  unfold minutes_of in *. rewrite Hs1, Hs2 in Hm.
  repeat split; try assumption; lia.
Qed.

Lemma shipments_loop_reads (a : ShipmentArgs) (idx : list Z) :
  forall (w w' : World) (rows : list dict),
  shipments_loop a idx w = Ok (rows, w') ->
  w_reads w' = (w_reads w + List.length idx)%nat.
Proof.
  induction idx as [|i idx IH]; intros w w' rows H; cbn [shipments_loop] in H.
  - injection H as _ <-. simpl. lia.
  - destruct (generate_random_coords _ _ _ w) as [[[lat lon] w1]|] eqn:E1;
      [|discriminate].
    cbn [rbind] in H.
    destruct (generate_random_time_window 6 22 60 _ _ w1) as [[tw w2]|] eqn:E2;
      [|discriminate].
    cbn [rbind] in H.
    destruct (random_randint 1 (max_pallets a) w2) as [[p w3]|] eqn:E3;
      [|discriminate].
    cbn [rbind] in H.
    destruct (shipments_loop a idx w3) as [[rest w4]|] eqn:E4; [|discriminate].
    cbn [rbind] in H. injection H as _ <-.
    apply generate_random_coords_world in E1 as [_ R1].
    apply generate_random_time_window_world in E2 as [_ R2].
    apply random_randint_ok in E3 as (_ & _ & _ & ->).
    apply IH in E4. cbn [set_rng w_reads] in E4. simpl List.length. lia.
Qed.

(** X19: a run that completes has read the clock once for each shipment,
    and has left the clock as it was. *)
Theorem clock_read_once_per_shipment (a : ShipmentArgs) (w w' : World) (text : string) :
  generate_shipments_csv a w = Ok (text, w') ->
  w_reads w' = (w_reads w + Z.to_nat (num_shipments a))%nat /\
  w_clock w' = w_clock w.
Proof.
  unfold generate_shipments_csv. intro H.
  destruct (shipment_rows a w) as [[rows w1]|] eqn:E; [|discriminate].
  cbn [rbind] in H.
  destruct (dictwriter_file shipment_headers rows) as [t|]; [|discriminate].
  cbn [rbind] in H. injection H as _ <-.
  unfold shipment_rows in E.
  pose proof (shipments_loop_reads _ _ _ _ _ E) as R.
  apply shipments_loop_inv in E as [_ C].
  rewrite py_range_length in R.
  destruct (seed a); simpl in *; auto.
Qed.

(** X20: every row has a cell for each of the 30 columns and no other: the
    line written for it is made of the values of the row, in the order of
    the header, none defaulted. *)
Theorem shipment_row_fills_header (a : ShipmentArgs) (i : Z) (lat lon : Q)
    (tw : TimeWindow) (p : Z) :
  dict_to_list shipment_headers (shipment_row a i lat lon tw p)
  = Ok (map snd (shipment_row a i lat lon tw p)) /\
  dict_keys (shipment_row a i lat lon tw p) = shipment_headers /\
  NoDup shipment_headers.
Proof.
  destruct tw as [[[s ss] e] se].
  split; [reflexivity|]. split; [reflexivity|].
  unfold shipment_headers.
  repeat (constructor; [cbn [In]; intuition discriminate|]). constructor.
Qed.

(** X25: with a pickup hour given and a run that stays within one calendar
    day, all rows carry the same four delivery times: the common pickup time
    of the docstring. *)
Theorem common_pickup_time (a : ShipmentArgs) (h : Z) (w w' : World)
    (rows : list dict) :
  pickup_hour a = Some h ->
  (forall k, same_date (w_clock w k) (w_clock w O)) ->
  shipment_rows a w = Ok (rows, w') ->
  forall r1 r2 key,
    In r1 rows -> In r2 rows -> In key delivery_time_columns ->
    dict_get key r1 "" = dict_get key r2 "".
Proof.
  intros Hp Hc H. apply shipment_rows_inv in H as [F _].
  assert (Forall (fun row =>
                    exists st en,
                      window_bounds (w_clock w O) h 60 = Ok (st, en) /\
                      (dict_get "deliveryStartTime" row "",
                       dict_get "deliverySoftStartTime" row "",
                       dict_get "deliveryEndTime" row "",
                       dict_get "deliverySoftEndTime" row "")
                      = (strftime ISO_FORMAT st, strftime ISO_FORMAT st,
                         strftime ISO_FORMAT en, strftime ISO_FORMAT en)) rows) as G.
  { eapply Forall2_Forall_r; [|exact F].
    intros i row (lat & lon & tw & p & w1 & w2 & Hw1 & Hg & _ & ->).
    rewrite shipment_row_window. rewrite Hp in Hg.
    apply generate_random_time_window_inv in Hg
      as (h' & v & st & en & Hsel & Hb & -> & _).
    simpl in Hsel. injection Hsel as <- <-.
    rewrite Hw1, (window_bounds_same_date _ _ h 60 (Hc (w_reads w1))) in Hb.
    exists st, en. auto. }
  intros r1 r2 key H1 H2 Hk.
  rewrite Forall_forall in G.
  destruct (G r1 H1) as (st1 & en1 & B1 & E1), (G r2 H2) as (st2 & en2 & B2 & E2).
  rewrite B1 in B2. injection B2 as <- <-.
  rewrite <- E2 in E1. injection E1 as A B C D.
  cbn [delivery_time_columns In] in Hk.
  destruct Hk as [<-|[<-|[<-|[<-|[]]]]]; assumption.
Qed.

End MoreRows.

(** ** Reading the file back *)

Lemma is_special_break (c : ascii) :
  is_special c = false -> is_break c = false /\ Ascii.eqb c DQUOTE = false.
Proof.
  unfold is_special, is_break. intro H.
  apply orb_false_iff in H as [H H4]. apply orb_false_iff in H as [H H3].
  apply orb_false_iff in H as [H1 H2]. rewrite H1, H3, H4. auto.
Qed.

Lemma is_break_not_quote (c : ascii) : is_break c = true -> Ascii.eqb c DQUOTE = false.
Proof.
  unfold is_break. intro H.
  destruct (Ascii.eqb_spec c DQUOTE) as [->|]; [discriminate H | reflexivity].
Qed.

Lemma read_plain_app (f rest : string) (c : ascii) :
  has_special f = false -> is_break c = true ->
  read_plain (f ++ String c rest) = (f, String c rest).
Proof.
  intros Hf Hc. induction f as [|x f IH]; cbn [append read_plain].
  - rewrite Hc. reflexivity.
  - cbn [has_special] in Hf. apply orb_false_iff in Hf as [Hx Hf].
    apply is_special_break in Hx as [Hx _]. rewrite Hx, (IH Hf). reflexivity.
Qed.

Lemma read_quoted_app (f rest : string) (c : ascii) :
  is_break c = true ->
  read_quoted (double_quotes f ++ String DQUOTE (String c rest)) = (f, String c rest).
Proof.
  intro Hc. pose proof (is_break_not_quote c Hc) as Hq.
  induction f as [|x f IH]; cbn [double_quotes append read_quoted].
  - change (Ascii.eqb DQUOTE DQUOTE) with true. cbv iota. rewrite Hq. reflexivity.
  - destruct (Ascii.eqb_spec x DQUOTE) as [->|Hx]; cbn [append read_quoted].
    + change (Ascii.eqb DQUOTE DQUOTE) with true. cbv iota. rewrite IH. reflexivity.
    + apply Ascii.eqb_neq in Hx. rewrite Hx, IH. reflexivity.
Qed.

Lemma read_cell_field (f rest : string) (c : ascii) :
  is_break c = true ->
  read_cell (csv_field f ++ String c rest) = (f, String c rest).
Proof.
  intro Hc. unfold csv_field. destruct (has_special f) eqn:E.
  - cbn [append read_cell]. change (Ascii.eqb DQUOTE DQUOTE) with true. cbv iota.
    rewrite append_assoc. cbn [append]. apply read_quoted_app; assumption.
  - destruct f as [|x f].
    + cbn [append read_cell]. rewrite (is_break_not_quote c Hc).
      cbn [read_plain]. rewrite Hc. reflexivity.
    + pose proof E as E'. cbn [has_special] in E'.
      apply orb_false_iff in E' as [Hx _]. apply is_special_break in Hx as [_ Hx].
      cbn [append read_cell]. rewrite Hx.
      exact (read_plain_app (String x f) rest c E Hc).
Qed.

Lemma read_row_join (fields : list string) (tail : string) : forall fuel,
  fields <> [] -> (List.length fields <= fuel)%nat ->
  read_row fuel (join_fields fields ++ CRLF ++ tail) = (fields, tail).
Proof.
  induction fields as [|f fields IH]; intros fuel Hne Hlen; [congruence|].
  destruct fuel as [|k]; [simpl in Hlen; lia|].
  destruct fields as [|g fields].
  - cbn [join_fields read_row]. change (CRLF ++ tail) with (String CR (String LF tail)).
    rewrite read_cell_field by reflexivity. reflexivity.
  - change (join_fields (f :: g :: fields))
      with (csv_field f ++ String COMMA (join_fields (g :: fields))).
    rewrite append_assoc.
    change (String COMMA (join_fields (g :: fields)) ++ CRLF ++ tail)
      with (String COMMA (join_fields (g :: fields) ++ CRLF ++ tail)).
    cbn [read_row]. rewrite read_cell_field by reflexivity.
    change (Ascii.eqb COMMA COMMA) with true. cbv iota.
    rewrite IH by (discriminate || (simpl in *; lia)). reflexivity.
Qed.

Lemma read_row_writerow (fields : list string) (tail : string) (fuel : nat) :
  fields <> [] -> (List.length fields <= fuel)%nat ->
  read_row fuel (writerow fields ++ tail) = (fields, tail).
Proof.
  intros Hne Hlen.
  assert (read_row fuel ((join_fields fields ++ CRLF) ++ tail) = (fields, tail)) as G
    by (rewrite append_assoc; apply read_row_join; assumption).
  unfold writerow.
  destruct fields as [|f fields]; [congruence|].
  destruct f as [|c f]; [destruct fields; [|exact G] | exact G].
  destruct fuel as [|k]; [simpl in Hlen; lia|]. reflexivity.
Qed.

Lemma length_append (a b : string) :
  String.length (a ++ b) = (String.length a + String.length b)%nat.
Proof. induction a as [|c a IH]; simpl; [reflexivity | rewrite IH; reflexivity]. Qed.

Lemma length_join_fields (fields : list string) :
  (List.length fields <= S (String.length (join_fields fields)))%nat.
Proof.
  induction fields as [|f fields IH]; [simpl; lia|].
  destruct fields as [|g fields]; [simpl; lia|].
  change (join_fields (f :: g :: fields))
    with (csv_field f ++ String COMMA (join_fields (g :: fields))).
  rewrite length_append. cbn [String.length]. cbn [List.length] in *. lia.
Qed.

Lemma length_writerow (fields : list string) :
  (2 <= String.length (writerow fields))%nat /\
  (List.length fields <= String.length (writerow fields))%nat.
Proof.
  assert ((2 <= String.length (join_fields fields ++ CRLF))%nat /\
          (List.length fields <= String.length (join_fields fields ++ CRLF))%nat) as G.
  { rewrite length_append. pose proof (length_join_fields fields).
    change (String.length CRLF) with 2%nat. lia. }
  unfold writerow.
  destruct fields as [|f fields]; [exact G|].
  destruct f as [|c f]; [destruct fields; [|exact G] | exact G].
  simpl. lia.
Qed.

Lemma length_write_lines (lines : list (list string)) :
  (List.length lines <= String.length (write_lines lines))%nat.
Proof.
  induction lines as [|l lines IH]; simpl; [lia|].
  rewrite length_append. pose proof (length_writerow l). lia.
Qed.

Lemma read_rows_write_lines (lines : list (list string)) : forall fuel,
  Forall (fun l => l <> []) lines -> (List.length lines <= fuel)%nat ->
  read_rows fuel (write_lines lines) = lines.
Proof.
  induction lines as [|l lines IH]; intros fuel Hne Hlen.
  - destruct fuel; reflexivity.
  - destruct fuel as [|k]; [simpl in Hlen; lia|].
    inversion Hne as [|? ? Hl Hrest]; subst.
    cbn [write_lines read_rows].
    pose proof (length_writerow l) as [L2 Ll].
    destruct (writerow l ++ write_lines lines) as [|c s] eqn:E.
    + apply (f_equal String.length) in E. rewrite length_append in E. simpl in E. lia.
    + rewrite <- E.
      rewrite read_row_writerow by (assumption || (rewrite length_append; lia)).
      rewrite IH by (assumption || (simpl in Hlen; lia)). reflexivity.
Qed.

Lemma writerows_lines (fieldnames : list string) (rows : list dict) (body : string) :
  writerows fieldnames rows = Ok body ->
  body = write_lines (map (fun r => map (fun key => dict_get key r "") fieldnames) rows).
Proof.
  revert body. induction rows as [|r rows IH]; intros body H; cbn [writerows] in H.
  - injection H as <-. reflexivity.
  - unfold dict_to_list in H.
    destruct (forallb _ (dict_keys r)); [|discriminate]. cbn [rbind] in H.
    destruct (writerows fieldnames rows) as [tail|]; [|discriminate].
    cbn [rbind] in H. injection H as <-.
    cbn [map write_lines]. rewrite (IH tail eq_refl). reflexivity.
Qed.

(** Nothing is lost in a file [DictWriter] writes: a CSV reader gets back
    the header names, then for each row the cells of its columns, commas and
    quotes inside cells included. *)
Lemma file_reads_back (fieldnames : list string) (rows : list dict) (text : string) :
  fieldnames <> [] ->
  dictwriter_file fieldnames rows = Ok text ->
  csv_read text
  = fieldnames :: map (fun r => map (fun key => dict_get key r "") fieldnames) rows.
Proof.
  intros Hf H. unfold dictwriter_file in H.
  destruct (writerows fieldnames rows) as [body|] eqn:E; [|discriminate].
  cbn [rbind] in H. injection H as <-.
  apply writerows_lines in E. subst body. unfold writeheader, csv_read.
  set (cells := map (fun r => map (fun key => dict_get key r "") fieldnames) rows).
  change (writerow fieldnames ++ write_lines cells)
    with (write_lines (fieldnames :: cells)).
  apply read_rows_write_lines.
  - constructor; [assumption|].
    unfold cells. apply Forall_forall. intros l Hl.
    apply in_map_iff in Hl as (r & <- & _).
    destruct fieldnames; [congruence | discriminate].
  - apply length_write_lines.
Qed.

Section MoreFiles.

Context {RT : Runtime}.

Lemma shipment_row_cells (a : ShipmentArgs) (i : Z) (lat lon : Q)
    (tw : TimeWindow) (p : Z) :
  map (fun key => dict_get key (shipment_row a i lat lon tw p) "") shipment_headers
  = map snd (shipment_row a i lat lon tw p).
Proof. destruct tw as [[[s ss] e] se]. reflexivity. Qed.

(** X21: nothing is lost in the shipment file: a CSV reader gets back from
    the text the 30 header names, then, row by row, the values of the row,
    commas of the waypoints included. *)
Theorem shipment_file_reads_back (a : ShipmentArgs) (w w' : World) (text : string) :
  generate_shipments_csv a w = Ok (text, w') ->
  exists rows,
    shipment_rows a w = Ok (rows, w') /\
    csv_read text = shipment_headers :: map (map snd) rows.
Proof.
  unfold generate_shipments_csv. intro H.
  destruct (shipment_rows a w) as [[rows w1]|] eqn:E; [|discriminate].
  cbn [rbind] in H.
  destruct (dictwriter_file shipment_headers rows) as [t|] eqn:D; [|discriminate].
  cbn [rbind] in H. injection H as <- <-.
  exists rows. split; [reflexivity|].
  rewrite (file_reads_back shipment_headers rows t) by (discriminate || assumption).
  f_equal. apply shipment_rows_inv in E as [F _].
  clear D. induction F as [|i row idx rows Hrow _ IH]; [reflexivity|].
  destruct Hrow as (lat & lon & tw & p & _ & _ & _ & _ & _ & ->).
  cbn [map]. rewrite shipment_row_cells, IH. reflexivity.
Qed.

Import Vehicles.

Lemma vehicle_row_cells (depot flag : string) (cap i : Z) :
  map (fun key => dict_get key (vehicle_row depot flag cap i) "") headers
  = map snd (vehicle_row depot flag cap i).
Proof. reflexivity. Qed.

(** X22: the vehicle file is always written, and a CSV reader gets back
    from it the 31 header names, then the values of each row. *)
Theorem vehicle_file_reads_back (a : VehicleArgs) :
  exists text,
    generate_vehicles_csv a = Ok text /\
    csv_read text = headers :: map (map snd) (vehicle_rows a).
Proof.
  destruct (generate_vehicles_csv_writes a) as [text H].
  exists text. split; [assumption|].
  unfold generate_vehicles_csv in H.
  rewrite (file_reads_back headers (vehicle_rows a) text) by (discriminate || assumption).
  f_equal. unfold vehicle_rows. rewrite !map_map.
  apply map_ext. intro i. apply vehicle_row_cells.
Qed.

(** X23: with no vehicle to make (a count of zero or less) the vehicle
    file is the header line alone. *)
Theorem no_vehicles_header_only (a : VehicleArgs) :
  num_vehicles a <= 0 ->
  generate_vehicles_csv a = Ok (writeheader headers).
Proof.
  intro H. unfold generate_vehicles_csv, vehicle_rows.
  rewrite py_range_nil by assumption. reflexivity.
Qed.

(** X24: the vehicles are labelled [Vehicle - 1], [Vehicle - 2], ... in the
    order they are written, no two alike, and each carries the capacity, in
    pallets, in decimal: [int] reads it back. *)
Theorem vehicle_labels (a : VehicleArgs) :
  map (fun row => dict_get "label" row "") (vehicle_rows a)
  = map (fun i => "Vehicle - " ++ str_int (i + 1)) (py_range (num_vehicles a)) /\
  NoDup (map (fun row => dict_get "label" row "") (vehicle_rows a)) /\
  Forall (fun row =>
            dict_get "loadLimit1Type" row "" = "pallets" /\
            int_of_str (dict_get "loadLimit1Value" row "") = Some (capacity_pallets a))
    (vehicle_rows a).
Proof.
  assert (map (fun row => dict_get "label" row "") (vehicle_rows a)
          = map (fun i => "Vehicle - " ++ str_int (i + 1)) (py_range (num_vehicles a)))
    as E.
  { unfold vehicle_rows. rewrite map_map. apply map_ext. reflexivity. }
  split; [exact E|]. split.
  - rewrite E. apply Injective_map_NoDup; [|apply py_range_NoDup].
    intros x y Hxy. apply append_inj_l, str_int_inj in Hxy. lia.
  - apply Forall_forall. intros row Hr.
    apply vehicle_rows_In in Hr as (i & _ & ->).
    split; [reflexivity|]. apply int_of_str_str_int.
Qed.

End MoreFiles.

(** ** The further properties on concrete inputs *)

Import Examples MoreExamples.


Lemma clock_dec31_has_room : clock_has_room clock_dec31.
Proof. intro k. unfold MINYEAR, MAXYEAR. simpl. lia. Defined.

Lemma reference_cosine_nonzero :
  ~ (@math_cos reference_runtime (@math_radians reference_runtime (444268056 # 10000000))
     == 0)%Q.
Proof. intro E. vm_compute in E. discriminate E. Defined.



Lemma coords_on_grid_witness :
  exists lat lon w',
    generate_random_coords (RT := reference_runtime)
      (444268056 # 10000000) (260999251 # 10000000) 20 world_dec31
    = Ok ((lat, lon), w') /\
    py_round lat 8 = lat /\ py_round lon 8 = lon.
Proof.
  evaluate E (generate_random_coords (RT := reference_runtime)
                (444268056 # 10000000) (260999251 # 10000000) 20 world_dec31).
  eexists. eexists. eexists. split; [exact E|].
  exact (coords_on_grid (RT := reference_runtime) _ _ _ _ _ _ _ E).
Defined.



Lemma empty_hour_range_witness :
  generate_random_time_window (RT := reference_runtime) 22 6 60 None 0 world_dec31
  = Raise ValueError.
Proof. apply (empty_hour_range (RT := reference_runtime)). lia. Defined.

Lemma last_day_overflows_witness :
  generate_random_time_window (RT := reference_runtime) 6 22 60 None 0 world_last_day
  = Raise OverflowError.
Proof.
  apply (last_day_overflows (RT := reference_runtime)); reflexivity.
Defined.

Lemma time_window_effects_witness :
  exists tw w',
    generate_random_time_window (RT := reference_runtime) 6 22 60 None 0
      world_dec31_evening = Ok (tw, w') /\
    w_reads w' = 5%nat /\ w_rng w' = [13].
Proof.
  evaluate E (generate_random_time_window (RT := reference_runtime) 6 22 60 None 0
                world_dec31_evening).
  eexists. eexists. split; [exact E|].
  destruct (time_window_effects (RT := reference_runtime) _ _ _ _ _ _ _ _ E)
    as (_ & A & B).
  split; [exact A | exact B].
Defined.

Lemma time_of_day_is_ignored_witness :
  output (generate_random_time_window (RT := reference_runtime) 6 22 60 (Some 8) 0
            world_dec31)
  = output (generate_random_time_window (RT := reference_runtime) 6 22 60 (Some 8) 0
              (mkWorld (G := Reference.state) words clock_dec31_evening 7)).
Proof.
  apply (time_of_day_is_ignored (RT := reference_runtime)).
  - reflexivity.
  - repeat split.
Defined.

Lemma shipments_run_completes_witness :
  exists text w',
    generate_shipments_csv (RT := reference_runtime) args world_dec31 = Ok (text, w').
Proof.
  apply (shipments_run_completes (RT := reference_runtime)).
  - split; [exact reference_cosine_nonzero|]. split; simpl; lia.
  - exact clock_dec31_has_room.
Defined.

Lemma no_shipments_header_only_witness :
  output (generate_shipments_csv (RT := reference_runtime) args_none world_last_day)
  = Ok (writeheader shipment_headers).
Proof.
  rewrite (no_shipments_header_only (RT := reference_runtime) args_none world_last_day)
    by (simpl; lia).
  reflexivity.
Defined.


Lemma no_pallets_is_fatal_witness :
  generate_shipments_csv (RT := reference_runtime) args_no_pallets world_dec31
  = Raise ValueError.
Proof.
  apply (no_pallets_is_fatal (RT := reference_runtime)).
  - simpl. lia.
  - exact reference_cosine_nonzero.
  - simpl. lia.
  - exact clock_dec31_has_room.
  - simpl. lia.
Defined.

Lemma shipment_labels_witness :
  exists rows w',
    shipment_rows (RT := reference_runtime) args world_dec31 = Ok (rows, w') /\
    map (fun row => dict_get "label" row "") rows
    = ["Order - 1"; "Order - 2"; "Order - 3"].
Proof.
  evaluate E (shipment_rows (RT := reference_runtime) args world_dec31).
  eexists. eexists. split; [exact E|].
  exact (proj1 (shipment_labels (RT := reference_runtime) args world_dec31 _ _ E)).
Defined.

Lemma shipment_pallets_witness :
  exists rows w',
    shipment_rows (RT := reference_runtime) args world_dec31 = Ok (rows, w') /\
    Forall (fun row =>
              exists p, 1 <= p <= 10 /\
                        int_of_str (dict_get "loadDemand1Value" row "") = Some p) rows.
Proof.
  evaluate E (shipment_rows (RT := reference_runtime) args world_dec31).
  eexists. eexists. split; [exact E|].
  pose proof (shipment_pallets (RT := reference_runtime) args world_dec31 _ _ E) as H.
  eapply Forall_impl; [|exact H]. intros row [_ Hp]. exact Hp.
Defined.

Lemma delivery_windows_inside_day_witness :
  exists rows w',
    shipment_rows (RT := reference_runtime) args_random_hour world_dec31
    = Ok (rows, w') /\
    Forall (fun row =>
              exists st en,
                parse_iso (dict_get "deliveryStartTime" row "") = Some st /\
                parse_iso (dict_get "deliveryEndTime" row "") = Some en /\
                6 <= hour st <= 21 /\ hour en = hour st + 1) rows.
Proof.
  evaluate E (shipment_rows (RT := reference_runtime) args_random_hour world_dec31).
  eexists. eexists. split; [exact E|].
  pose proof (delivery_windows_inside_day (RT := reference_runtime) args_random_hour
                world_dec31 _ _ eq_refl wf_clock_dec31 E) as H.
  eapply Forall_impl; [|exact H].
  intros row (st & en & A & B & C & D & _). exists st, en. auto.
Defined.

Lemma fixed_pickup_windows_witness :
  exists rows w',
    shipment_rows (RT := reference_runtime) args_hour_23 world_dec31 = Ok (rows, w') /\
    Forall (fun row =>
              exists st en,
                parse_iso (dict_get "deliveryStartTime" row "") = Some st /\
                parse_iso (dict_get "deliveryEndTime" row "") = Some en /\
                toordinal en = toordinal st + 1 /\ hour en = 0) rows.
Proof.
  evaluate E (shipment_rows (RT := reference_runtime) args_hour_23 world_dec31).
  eexists. eexists. split; [exact E|].
  pose proof (fixed_pickup_windows (RT := reference_runtime) args_hour_23 23
                world_dec31 _ _ eq_refl wf_clock_dec31 E) as H.
  eapply Forall_impl; [|exact H].
  intros row (st & en & A & B & _ & _ & _ & _ & _ & C).
  exists st, en. destruct (C eq_refl). auto.
Defined.

Lemma clock_read_once_per_shipment_witness :
  exists text w',
    generate_shipments_csv (RT := reference_runtime) args world_dec31 = Ok (text, w') /\
    w_reads w' = 3%nat.
Proof.
  evaluate E (generate_shipments_csv (RT := reference_runtime) args world_dec31).
  eexists. eexists. split; [exact E|].
  exact (proj1 (clock_read_once_per_shipment (RT := reference_runtime) args world_dec31
                  _ _ E)).
Defined.

Lemma shipment_file_reads_back_witness :
  exists text w' (rows : list dict),
    generate_shipments_csv (RT := reference_runtime) args world_dec31 = Ok (text, w') /\
    csv_read text = shipment_headers :: map (map snd) rows /\
    List.length rows = 3%nat.
Proof.
  evaluate E (generate_shipments_csv (RT := reference_runtime) args world_dec31).
  destruct (shipment_file_reads_back (RT := reference_runtime) args world_dec31 _ _ E)
    as (rows & Hr & Hc).
  eexists. eexists. exists rows. split; [exact E|]. split; [exact Hc|].
  apply shipment_rows_inv in Hr as [_ L]. exact L.
Defined.

Lemma no_vehicles_header_only_witness :
  Vehicles.generate_vehicles_csv (RT := reference_runtime) no_vehicles
  = Ok (writeheader Vehicles.headers).
Proof.
  apply (no_vehicles_header_only (RT := reference_runtime)). simpl. lia.
Defined.

Lemma common_pickup_time_witness :
  exists rows w',
    shipment_rows (RT := reference_runtime) args world_dec31 = Ok (rows, w') /\
    forall r1 r2,
      In r1 rows -> In r2 rows ->
      dict_get "deliveryStartTime" r1 "" = dict_get "deliveryStartTime" r2 "".
Proof.
  evaluate E (shipment_rows (RT := reference_runtime) args world_dec31).
  eexists. eexists. split; [exact E|].
  intros r1 r2 H1 H2.
  apply (common_pickup_time (RT := reference_runtime) args 8 world_dec31 _ _
           eq_refl (fun k => conj eq_refl (conj eq_refl eq_refl)) E r1 r2);
    [assumption | assumption | left; reflexivity].
Defined.

(** ** The rows: waypoints and numeric cells *)

Section RowCells.

Context {RT : Runtime}.



(** X28: the whole-number arguments are written in decimal in every row
    and [int] reads them back: the penalty cost, the delivery duration and,
    twice, the penalty per hour. *)
Theorem numeric_cells_read_back (a : ShipmentArgs) (w w' : World) (rows : list dict) :
  shipment_rows a w = Ok (rows, w') ->
  Forall (fun row =>
            int_of_str (dict_get "penaltyCost" row "") = Some (penalty_cost a) /\
            int_of_str (dict_get "deliveryDuration" row "")
              = Some (delivery_duration_sec a) /\
            int_of_str (dict_get "deliveryCostPerHourBeforeSoftStartTime" row "")
              = Some (penalty_per_hour a) /\
            int_of_str (dict_get "deliveryCostPerHourAfterSoftEndTime" row "")
              = Some (penalty_per_hour a)) rows.
Proof.
  intro H. apply shipment_rows_inv in H as [F _].
  eapply Forall2_Forall_r; [|exact F].
  intros i row (lat & lon & tw & p & _ & _ & _ & _ & _ & ->).
  destruct tw as [[[s ss] e] se].
  cbn [shipment_row dict_get String.eqb Ascii.eqb Bool.eqb].
  repeat split; apply int_of_str_str_int.
Qed.

(** X26: with an hour of the day (fixed, or drawn from a non-empty range
    inside the day), a duration of at most a day and a clock not within two
    years of the end of the calendar, the generator returns a window. *)
Theorem time_window_is_returned sh eh dur fh fm (w : World) :
  MINYEAR <= year (w_clock w (w_reads w)) < MAXYEAR - 1 ->
  match fh with
  | Some h => 0 <= h < 24
  | None => 0 <= sh < eh /\ eh <= 24
  end ->
  0 <= dur <= 1440 ->
  exists tw w', generate_random_time_window sh eh dur fh fm w = Ok (tw, w').
Proof. apply generate_random_time_window_total. Qed.

End RowCells.



Lemma numeric_cells_read_back_witness :
  exists rows w',
    shipment_rows (RT := reference_runtime) args world_dec31 = Ok (rows, w') /\
    Forall (fun row => int_of_str (dict_get "penaltyCost" row "") = Some 200) rows.
Proof.
  evaluate E (shipment_rows (RT := reference_runtime) args world_dec31).
  eexists. eexists. split; [exact E|].
  pose proof (numeric_cells_read_back (RT := reference_runtime) args world_dec31 _ _ E)
    as H.
  eapply Forall_impl; [|exact H]. intros row [A _]. exact A.
Defined.

Lemma time_window_is_returned_witness :
  exists tw w',
    generate_random_time_window (RT := reference_runtime) 6 22 60 None 0 world_dec31
    = Ok (tw, w').
Proof.
  apply (time_window_is_returned (RT := reference_runtime)).
  - unfold MINYEAR, MAXYEAR. simpl. lia.
  - lia.
  - lia.
Defined.


(** ** The pickup minute *)

Section PickupMinute.

Context {RT : Runtime}.

Lemma shipment_row_pickup_minute (a : ShipmentArgs) (m i : Z) (lat lon : Q)
    (tw : TimeWindow) (p : Z) :
  shipment_row (with_pickup_minute a m) i lat lon tw p = shipment_row a i lat lon tw p.
Proof. destruct tw as [[[s ss] e] se]. reflexivity. Qed.

Lemma shipments_loop_pickup_minute (a : ShipmentArgs) (m : Z) (idx : list Z) :
  forall w : World,
  shipments_loop (with_pickup_minute a m) idx w = shipments_loop a idx w.
Proof.
  induction idx as [|i idx IH]; intro w; cbn [shipments_loop]; [reflexivity|].
  cbn [with_pickup_minute delivery_center_lat delivery_center_lon square_size_km
       pickup_hour pickup_minute max_pallets].
  destruct (generate_random_coords _ _ _ w) as [[[lat lon] w1]|]; [|reflexivity].
  cbn [rbind].
  change (generate_random_time_window 6 22 60 (pickup_hour a) m w1)
    with (generate_random_time_window 6 22 60 (pickup_hour a) (pickup_minute a) w1).
  destruct (generate_random_time_window 6 22 60 _ _ w1) as [[tw w2]|]; [|reflexivity].
  cbn [rbind].
  destruct (random_randint 1 (max_pallets a) w2) as [[p w3]|]; [|reflexivity].
  cbn [rbind]. rewrite IH.
  destruct (shipments_loop a idx w3) as [[rows w4]|]; [|reflexivity].
  cbn [rbind]. rewrite shipment_row_pickup_minute. reflexivity.
Qed.

(** X30: the pickup minute has no effect at all: two runs whose arguments
    differ in [pickup_minute] only write the same text, or stop on the same
    exception, and leave the same world. *)
Theorem pickup_minute_is_ignored (a : ShipmentArgs) (m : Z) (w : World) :
  generate_shipments_csv (with_pickup_minute a m) w = generate_shipments_csv a w.
Proof.
  unfold generate_shipments_csv, shipment_rows.
  cbn [with_pickup_minute seed num_shipments].
  rewrite shipments_loop_pickup_minute. reflexivity.
Qed.

End PickupMinute.
